(** * Bright Data SERP proxy: the result-extraction engine and its dispatcher

    A shallow embedding of [src/index.js].  The file under [src/] holds three
    revisions of the server: the current one (tree-based parser
    [parseGoogleHTMLWithCheerio], two endpoints), an earlier one whose parser
    [parseGoogleHTML] works with regular expressions, and an earlier tree-based
    one.  The current one is embedded at the top level, the earlier ones in
    the modules [Regex] and [Legacy].

    Strings are [string]: one character stands for one code unit of the
    JavaScript string, so the embedding covers the strings whose code units
    are below 256. *)

From stdpp Require Import base option list strings gmap pretty.
From Stdlib Require Import ZArith Ascii.

(** ** The string primitives of the runtime used by the server *)

Module Js.

Local Open Scope Z_scope.

(** [String.prototype.trim] strips WhiteSpace and LineTerminator code units:
    TAB, LF, VT, FF, CR, SP and NBSP are the ones below 256. *)
Definition isWhiteSpace (c : ascii) : bool :=
  match c with
  | "009" | "010" | "011" | "012" | "013" | " " | "160" => true
  | _ => false
  end%char.

Fixpoint trimStart (s : string) : string :=
  match s with
  | String c s' => if isWhiteSpace c then trimStart s' else s
  | EmptyString => EmptyString
  end.

Fixpoint trimEnd (s : string) : string :=
  match s with
  | String c s' =>
      match trimEnd s' with
      | EmptyString => if isWhiteSpace c then EmptyString else String c EmptyString
      | t => String c t
      end
  | EmptyString => EmptyString
  end.

Definition trim (s : string) : string := trimEnd (trimStart s).

(** ToBoolean on a string: the empty string is the only falsy one. *)
Definition truthy (s : string) : bool :=
  match s with EmptyString => false | _ => true end.

Definition startsWith (s p : string) : bool := String.prefix p s.

Fixpoint includes (s t : string) : bool :=
  String.prefix t s ||
  match s with
  | String _ s' => includes s' t
  | EmptyString => false
  end.

Fixpoint indexOf_from (i : Z) (s t : string) : Z :=
  if String.prefix t s then i
  else match s with
       | String _ s' => indexOf_from (i + 1) s' t
       | EmptyString => -1
       end.

Definition indexOf (s t : string) : Z := indexOf_from 0 s t.

(** [s.substring(from, to)]: both indices are clamped to [0, length], and
    swapped when [from > to]; a missing [to] is the length. *)
Definition substring (s : string) (from : Z) (to : option Z) : string :=
  let len := Z.of_nat (String.length s) in
  let clamp i := Z.max 0 (Z.min i len) in
  let a := clamp from in
  let b := match to with Some e => clamp e | None => len end in
  String.substring (Z.to_nat (Z.min a b)) (Z.to_nat (Z.max a b - Z.min a b)) s.

(** *** [encodeURIComponent] *)

Definition isUnreservedURI (c : ascii) : bool :=
  let n := N_of_ascii c in
  ((65 <=? n) && (n <=? 90) || (97 <=? n) && (n <=? 122) ||
   (48 <=? n) && (n <=? 57))%N ||
  match c with
  | "-" | "_" | "." | "!" | "~" | "*" | "'" | "(" | ")" => true
  | _ => false
  end%char.

Definition hexDigit (n : N) : ascii :=
  if (n <? 10)%N then ascii_of_N (48 + n) else ascii_of_N (55 + n).

Definition percentByte (n : N) : string :=
  String "%" (String (hexDigit (n / 16)) (String (hexDigit (n mod 16)) EmptyString)).

(** A code unit below 128 is one UTF-8 octet, one between 128 and 255 is two. *)
Definition utf8Escape (c : ascii) : string :=
  let n := N_of_ascii c in
  if (n <? 128)%N then percentByte n
  else percentByte (192 + n / 64) +:+ percentByte (128 + n mod 64).

Fixpoint encodeURIComponent (s : string) : string :=
  match s with
  | String c s' =>
      (if isUnreservedURI c then String c EmptyString else utf8Escape c)
      +:+ encodeURIComponent s'
  | EmptyString => EmptyString
  end.

(** *** [URLSearchParams] on a string *)

Fixpoint splitOn (sep : ascii) (s : string) : list string :=
  match s with
  | String c s' =>
      if Ascii.eqb c sep then EmptyString :: splitOn sep s'
      else match splitOn sep s' with
           | w :: ws => String c w :: ws
           | [] => [String c EmptyString]
           end
  | EmptyString => [EmptyString]
  end.

(** The part before the first [sep] and, when there is one, the part after. *)
Fixpoint cutAt (sep : ascii) (s : string) : string * option string :=
  match s with
  | String c s' =>
      if Ascii.eqb c sep then (EmptyString, Some s')
      else let '(a, b) := cutAt sep s' in (String c a, b)
  | EmptyString => (EmptyString, None)
  end.

Definition hexValue (c : ascii) : option N :=
  let n := N_of_ascii c in
  if ((48 <=? n) && (n <=? 57))%N then Some (n - 48)%N
  else if ((65 <=? n) && (n <=? 70))%N then Some (n - 55)%N
  else if ((97 <=? n) && (n <=? 102))%N then Some (n - 87)%N
  else None.

Fixpoint plusToSpace (s : string) : string :=
  match s with
  | String c s' => String (if Ascii.eqb c "+" then " "%char else c) (plusToSpace s')
  | EmptyString => EmptyString
  end.

(** Percent-decoding of the form-urlencoded parser.  The decoded octets are
    kept as code units: the parser's UTF-8 decoding is the identity on the
    octets below 128. *)
Fixpoint percentDecode (s : string) : string :=
  match s with
  | String c t =>
      match t with
      | String h (String l r) =>
          match (if Ascii.eqb c "%" then hexValue h else None), hexValue l with
          | Some a, Some b => String (ascii_of_N (16 * a + b)) (percentDecode r)
          | _, _ => String c (percentDecode t)
          end
      | _ => String c (percentDecode t)
      end
  | EmptyString => EmptyString
  end.

Definition formDecode (s : string) : string := percentDecode (plusToSpace s).

(** [new URLSearchParams(init)]: a leading [?] is dropped, the rest is split
    on [&], empty pieces are skipped, each piece is cut at its first [=]. *)
Definition URLSearchParams (init : string) : list (string * string) :=
  let input := match init with String "?" r => r | _ => init end in
  omap (fun piece =>
          match piece with
          | EmptyString => None
          | _ => let '(name, value) := cutAt "=" piece in
                 Some (formDecode name, formDecode (default EmptyString value))
          end)
       (splitOn "&" input).

(** [params.get(name)]: the value of the first pair called [name], or null. *)
Fixpoint get {V} (params : list (string * V)) (name : string) : option V :=
  match params with
  | (n, v) :: rest => if String.eqb n name then Some v else get rest name
  | [] => None
  end.

End Js.


(** ** Values, results, console and exceptions *)

Local Set Warnings "-register-all".

(** What [JSON.parse] (request bodies) and the query-string parser (request
    queries) produce.  An object is the list of its own properties, in
    insertion order; a later duplicate of a key overrides an earlier one.
    The numbers are the integers, which are written out in decimal. *)
Inductive value : Type :=
| JNull
| JBool (b : bool)
| JNum (n : Z)
| JStr (s : string)
| JArr (items : list value)
| JObj (props : list (string * value)).

(** One entry of the result list sent to the client. *)
Record result : Type := Result {
  title : string;
  url : string;
  snippet : string;
  source : string
}.

(** A thrown [Error]: its [message] and, when it has one, its [stack]. *)
Record error : Type := Error { message : string; stack : option string }.

Inductive level : Type := Log | Warn | Err.

(** An argument of a console call: a string, or the value that the call
    serialises with [JSON.stringify]. *)
Inductive datum : Type :=
| Str (s : string)
| Undefined
| Json (v : option value)
| JsonResults (rs : list result).

Record console_line : Type := Line { lvl : level; args : list datum }.

(** The request handed to the upstream fetch API and what comes back. *)
Record upstream_request : Type := UpstreamRequest {
  endpoint : string;
  authorization : string;
  user_agent : string;
  zone : string;
  target_url : string;
  format : string
}.

Record upstream_response : Type := UpstreamResponse {
  status : nat;
  statusText : string;
  text : error + string  (* [await response.text()] *)
}.

(** [response.ok]: the status is in the range 200-299. *)
Definition ok (r : upstream_response) : bool :=
  (200 <=? status r)%nat && (status r <=? 299)%nat.

(** The state outside of a call: what was written to the console, the
    upstream calls made so far, and the clock read by [new Date()]. *)
Record world : Type := World {
  console : list console_line;
  network : list upstream_request;
  clock : string
}.

(** Code that cannot throw: state passing over the world. *)
Definition IO (A : Type) : Type := world -> A * world.

Definition io_ret {A} (a : A) : IO A := fun w => (a, w).
Definition io_bind {A B} (m : IO A) (k : A -> IO B) : IO B :=
  fun w => let '(a, w') := m w in k a w'.

Definition console_write (l : level) (xs : list datum) : IO unit :=
  fun w => (tt, World (console w ++ [Line l xs]) (network w) (clock w)).

#[global] Instance IO_ret : MRet IO := @io_ret.
#[global] Instance IO_bind : MBind IO := fun A B k m => io_bind m k.

(** Code that can throw: the same, with an exception or a value. *)
Definition M (A : Type) : Type := world -> (error + A) * world.

Definition m_ret {A} (a : A) : M A := fun w => (inr a, w).
Definition m_bind {A B} (m : M A) (k : A -> M B) : M B :=
  fun w => match m w with
           | (inr a, w') => k a w'
           | (inl e, w') => (inl e, w')
           end.
#[global] Instance M_ret : MRet M := @m_ret.
#[global] Instance M_bind : MBind M := fun A B k m => m_bind m k.

(** A computation that cannot throw, inside one that can. *)
Definition lift {A} (m : IO A) : M A := fun w => let '(a, w') := m w in (inr a, w').

(** A value or an exception computed without the world. *)
Definition liftE {A} (x : error + A) : M A := fun w => (x, w).

(** [try { body } catch (error) { handler }] *)
Definition try_catch {A} (body : M A) (handler : error -> IO A) : IO A :=
  fun w => match body w with
           | (inr a, w') => (a, w')
           | (inl e, w') => handler e w'
           end.

(** ** The interface of the tree library

    [cheerio] is a dependency of the server, not part of it: the parser is
    written against its interface.  A cheerio object is a list of elements in
    document order. *)

(** The selectors the server uses, as syntax trees. *)
Inductive simple : Type :=
| Tag (name : string)            (* div *)
| Id (id : string)               (* #search *)
| Class (c : string)             (* .g *)
| Attr (name : string)           (* [href] *)
| AttrEq (name v : string)       (* [role="heading"] *)
| AttrSub (name v : string)      (* [aria-label*="Ads"] *)
| Contains (t : string).         (* :contains("Ad") *)

Inductive complex : Type :=
| Compound (c : list simple)                      (* div.g *)
| Descendant (a : complex) (c : list simple)      (* A B *)
| Child (p : complex) (c : list simple).          (* A > B *)

(** A comma-separated group. *)
Definition selector : Type := list complex.

Class Cheerio : Type := {
  document : Type;
  element : Type;
  load : string -> error + document;                  (* cheerio.load(html) *)
  select : document -> selector -> list element;      (* $(selector) *)
  find : list element -> selector -> list element;    (* .find(selector) *)
  closest : list element -> selector -> list element; (* .closest(selector) *)
  text_of : list element -> string;                   (* .text() *)
  attr : list element -> string -> option string;     (* .attr(name) *)
  css : list element -> string -> option string       (* .css(prop) *)
}.

(** [.first()] *)
Definition first {A} (xs : list A) : list A := take 1 xs.

(** The callback of [.each] answers [false] to stop the iteration. *)
Inductive signal : Type := Continue | Break.

Fixpoint each {A S} (cb : S -> A -> signal * S) (xs : list A) (st : S) : S :=
  match xs with
  | [] => st
  | x :: rest =>
      match cb st x with
      | (Break, st') => st'
      | (Continue, st') => each cb rest st'
      end
  end.

(** The two closure variables of the loop: [results] and [seenUrls]. *)
Record acc : Type := Acc { results : list result; seenUrls : gset string }.


(** [xs.length > 0] *)
Definition nonEmpty {A} (xs : list A) : bool := (0 <? length xs)%nat.

(** A string between double quotes, as the templates put the query. *)
Definition quoted (s : string) : string :=
  String "034" (s +:+ String "034" EmptyString).

Definition backslash : string := String "092" EmptyString.

(** The link of every placeholder entry. *)
Definition searchUrl (query : string) : string :=
  "https://www.google.com/search?q=" +:+ Js.encodeURIComponent query.

(** ** The current revision: [parseGoogleHTMLWithCheerio] *)

Section Parser.
Context `{Cheerio}.

(** ['div.tF2Cxc, div.kvH3mc, #search div.g'] *)
Definition resultBlocksSelector : selector :=
  [ Compound [Tag "div"; Class "tF2Cxc"];
    Compound [Tag "div"; Class "kvH3mc"];
    Descendant (Compound [Id "search"]) [Tag "div"; Class "g"] ].

(** ['div[role="heading"][aria-level="2"]:contains(label)'] *)
Definition sectionHeading (label : string) : selector :=
  [ Compound [Tag "div"; AttrEq "role" "heading"; AttrEq "aria-level" "2";
              Contains label] ].

(** ['h3, div[role="heading"][aria-level="3"]'] *)
Definition headingSelector : selector :=
  [ Compound [Tag "h3"];
    Compound [Tag "div"; AttrEq "role" "heading"; AttrEq "aria-level" "3"] ].

(** The condition of the first [if] of the loop body: the block is an ad or
    a special feature. *)
Definition isAdOrSpecial (resultElement : list element) : bool :=
  nonEmpty (closest resultElement [Compound [AttrEq "data-text-ad" "1"]]) ||
  nonEmpty (find resultElement
              [Compound [Tag "span"; Contains "Ad"];
               Compound [Tag "span"; Contains "Sponsored"]]) ||
  nonEmpty (find resultElement
              [Compound [Tag "div"; AttrEq "role" "region";
                         AttrSub "aria-label" "Ads"]]) ||
  nonEmpty (find resultElement
              [Compound [Tag "div"; AttrEq "data-nosnippet" "true"]]) ||
  nonEmpty (find resultElement [Compound [Tag "g-accordion-expander"]]) ||
  nonEmpty (find resultElement (sectionHeading "People also ask")) ||
  nonEmpty (find resultElement (sectionHeading "Related searches")) ||
  nonEmpty (find resultElement (sectionHeading "Top stories")) ||
  nonEmpty (find resultElement (sectionHeading "Videos")) ||
  bool_decide (css resultElement "display" = Some "none").

(** The second [if]: the trimmed text of the block has fewer than 50 units. *)
Definition isTooShort (resultElement : list element) : bool :=
  (String.length (Js.trim (text_of resultElement)) <? 50)%nat.

(** The link and the title of a block: [None] when the block has no link at
    all (the callback returns).  The link is [undefined] when [.attr] finds
    no [href]. *)
Definition linkAndTitle (resultElement : list element)
  : option (option string * string) :=
  let linkElement :=
    first (find resultElement
             [ Child (Compound [Tag "div"; Class "yuRUbf"]) [Tag "a"; Attr "href"];
               Compound [Tag "a"; AttrEq "jsname" "UWckNb"; Attr "href"] ]) in
  if nonEmpty linkElement then
    Some (attr linkElement "href",
          Js.trim (text_of (first (find linkElement headingSelector))))
  else
    let genericLink :=
      first (find resultElement [Compound [Tag "a"; Attr "href"]]) in
    if nonEmpty genericLink then
      let t := Js.trim (text_of (first (find genericLink [Compound [Tag "h3"]]))) in
      Some (attr genericLink "href",
            if Js.truthy t then t
            else Js.trim (text_of (first (find resultElement headingSelector))))
    else None.

(** "Clean URL if it's a Google redirect": the unwrap step on a string. *)
Definition unwrapRedirect (url : string) : string :=
  if Js.truthy url && Js.startsWith url "/url?q=" then
    let urlParams :=
      Js.URLSearchParams (Js.substring url (Js.indexOf url "?") None) in
    match Js.get urlParams "q" with
    | Some q => if Js.truthy q then q else url
    | None => url
    end
  else url.

(** The fixed denylist of the URL validation. *)
Definition deniedFragments : list string :=
  [ "google.com/search?"; "google.com/imgres"; "google.com/maps";
    "google.com/preferences"; "accounts.google.com";
    "support.google.com/websearch/answer"; "policies.google.com";
    "webcache.googleusercontent.com" ].

(** The condition of the "URL validation (critical)" [if]: the block is
    skipped when it holds. *)
Definition urlRejected (url : option string) (seen : gset string) : bool :=
  match url with
  | None => true
  | Some u =>
      negb (Js.truthy u) || negb (Js.startsWith u "http") ||
      existsb (Js.includes u) deniedFragments ||
      bool_decide (u ∈ seen)
  end.

(** ['div.VwiC3b, div.Uroaid, div.s, div.st, div[data-sncf="1"]'] *)
Definition snippetSelector : selector :=
  [ Compound [Tag "div"; Class "VwiC3b"]; Compound [Tag "div"; Class "Uroaid"];
    Compound [Tag "div"; Class "s"]; Compound [Tag "div"; Class "st"];
    Compound [Tag "div"; AttrEq "data-sncf" "1"] ].

(** The fallback of the snippet: the text of the spans outside of headings
    and links that is longer than 15, joined by spaces, cut at 350. *)
Definition spanFallback (resultElement : list element) : string :=
  let potentialSnippetText :=
    foldl (fun collected spanEl =>
             let span := [spanEl] in
             if (length (closest span
                           [ Compound [Tag "h3"];
                             Compound [Tag "div"; Class "yuRUbf"];
                             Compound [Tag "a"; Attr "href"] ]) =? 0)%nat
                && (15 <? String.length (Js.trim (text_of span)))%nat
             then collected +:+ Js.trim (text_of span) +:+ " "
             else collected)
          EmptyString
          (find resultElement [Compound [Tag "span"]]) in
  Js.substring (Js.trim potentialSnippetText) 0 (Some 350%Z).

Definition extractSnippet (resultElement : list element) : string :=
  let snippet := Js.trim (text_of (first (find resultElement snippetSelector))) in
  if Js.truthy snippet then snippet else spanFallback resultElement.

(** The last [if] of the loop body. *)
Definition accepted (title url snippet : string) : bool :=
  Js.truthy title && Js.truthy url &&
  (3 <? String.length title)%nat && (10 <? String.length snippet)%nat.

(** The callback of [resultBlocks.each]. *)
Definition blockCallback (st : acc) (el : element) : signal * acc :=
  if (10 <=? length (results st))%nat then (Break, st)
  else
    let resultElement := [el] in
    if isAdOrSpecial resultElement then (Continue, st)
    else if isTooShort resultElement then (Continue, st)
    else
      match linkAndTitle resultElement with
      | None => (Continue, st)
      | Some (href, title) =>
          let url := unwrapRedirect <$> href in
          if urlRejected url (seenUrls st) then (Continue, st)
          else
            let url := default EmptyString url in
            let snippet := extractSnippet resultElement in
            if accepted title url snippet then
              (Continue,
               Acc (results st ++
                      [Result title url snippet "Bright Data SERP (Cheerio)"])
                   ({[url]} ∪ seenUrls st))
            else (Continue, st)
      end.

(** The entry returned when the library fails to load the markup. *)
Definition loadErrorResult (query : string) : result :=
  Result ("Error parsing HTML for " +:+ quoted query)
         (searchUrl query)
         "Internal proxy error: Cheerio could not load the HTML content from Bright Data."
         "Bright Data SERP (Cheerio Load Error)".

(** The entry returned when the loop extracted nothing. *)
Definition fallbackResult (query : string) : result :=
  Result ("No organic results found for " +:+ quoted query)
         (searchUrl query)
         "Could not extract organic search results. Google's HTML structure might have changed or no relevant results were found."
         "Bright Data SERP (Cheerio Fallback)".

(** The result list at the end of the loop over the blocks of a document. *)
Definition extractResults (doc : document) : list result :=
  results (each blockCallback (select doc resultBlocksSelector) (Acc [] ∅)).

Definition parseGoogleHTMLWithCheerio (html query : string) : IO (list result) :=
  console_write Log [Str "PROXY_PARSE_RAW_HTML_START:";
                     Str (Js.substring html 0 (Some 500%Z))] ;;
  if negb (Js.truthy html) then
    console_write Warn [Str "PROXY_PARSE_WARN: HTML content is missing or not a string."] ;;
    mret []
  else
    match load html with
    | inl e =>
        console_write Err
          [Str "PROXY_PARSE_ERROR: Cheerio failed to load HTML.";
           Str (message e);
           match stack e with
           | Some st => Str (Js.substring st 0 (Some 300%Z))
           | None => Undefined
           end] ;;
        mret [loadErrorResult query]
    | inr doc =>
        let results := extractResults doc in
        if (length results =? 0)%nat then
          console_write Warn
            [Str ("PROXY_PARSE_FINAL_WARN: No organic results extracted for query "
                  +:+ quoted query +:+ ". Returning fallback.")] ;;
          console_write Log [Str "PROXY_PARSE_DEBUG: Fallback result being returned:";
                             JsonResults [fallbackResult query]] ;;
          mret [fallbackResult query]
        else
          console_write Log
            [Str ("PROXY_PARSE_DEBUG: Successfully extracted "
                  +:+ pretty (length results) +:+ " results. Returning:");
             JsonResults (take 2 results)] ;;
          mret results
    end.

End Parser.

(** ** A document tree implementing the library interface

    Elements, text and comments as the library's parser builds them; an
    element is handled together with its chain of ancestors, nearest first,
    which is what [closest] and the combinators walk. *)

Module Tree.

Inductive node : Type :=
| TextNode (data : string)
| CommentNode (data : string)
| Elem (name : string) (attribs : list (string * string)) (children : list node).

Record handle : Type := Handle { self : node; ancestors : list node }.

Definition getAttr (n : node) (name : string) : option string :=
  match n with
  | Elem _ attribs _ => Js.get attribs name
  | _ => None
  end.

(** [.text()]: the text nodes below, comments left out. *)
Fixpoint textContent (n : node) : string :=
  match n with
  | TextNode d => d
  | CommentNode _ => EmptyString
  | Elem _ _ cs =>
      (fix go (l : list node) : string :=
         match l with
         | [] => EmptyString
         | c :: r => textContent c +:+ go r
         end) cs
  end.

(** The text that [:contains] searches: as above, a [br] reads as a line feed. *)
Fixpoint getText (n : node) : string :=
  match n with
  | TextNode d => d
  | CommentNode _ => EmptyString
  | Elem name _ cs =>
      if String.eqb name "br" then String "010" EmptyString
      else (fix go (l : list node) : string :=
              match l with
              | [] => EmptyString
              | c :: r => getText c +:+ go r
              end) cs
  end.

(** The words of a [class] attribute. *)
Fixpoint words (s : string) : list string :=
  match s with
  | String c s' =>
      if Js.isWhiteSpace c then EmptyString :: words s'
      else match words s' with
           | w :: ws => String c w :: ws
           | [] => [String c EmptyString]
           end
  | EmptyString => [EmptyString]
  end.

Definition matchSimple (h : handle) (s : simple) : bool :=
  match self h, s with
  | Elem name _ _, Tag t => String.eqb name t
  | Elem _ _ _, Id i => bool_decide (getAttr (self h) "id" = Some i)
  | Elem _ _ _, Class c =>
      match getAttr (self h) "class" with
      | Some v => existsb (String.eqb c) (words v)
      | None => false
      end
  | Elem _ _ _, Attr a => bool_decide (is_Some (getAttr (self h) a))
  | Elem _ _ _, AttrEq a v => bool_decide (getAttr (self h) a = Some v)
  | Elem _ _ _, AttrSub a v =>
      match getAttr (self h) a with
      | Some w => Js.includes w v
      | None => false
      end
  | Elem _ _ _, Contains t => Js.includes (getText (self h)) t
  | _, _ => false
  end.

Definition matchCompound (h : handle) (c : list simple) : bool :=
  forallb (matchSimple h) c.

(** The handles of the ancestors of [h], nearest first. *)
Fixpoint ancestorHandles (anc : list node) : list handle :=
  match anc with
  | [] => []
  | p :: rest => Handle p rest :: ancestorHandles rest
  end.

Fixpoint matchComplex (c : complex) (h : handle) : bool :=
  match c with
  | Compound cs => matchCompound h cs
  | Descendant a cs =>
      matchCompound h cs && existsb (matchComplex a) (ancestorHandles (ancestors h))
  | Child p cs =>
      matchCompound h cs && existsb (matchComplex p) (first (ancestorHandles (ancestors h)))
  end.

Definition matches (sel : selector) (h : handle) : bool :=
  existsb (fun c => matchComplex c h) sel.

(** The elements of the subtree of [n] in document order, [n] first. *)
Fixpoint subtree (anc : list node) (n : node) : list handle :=
  match n with
  | Elem _ _ cs =>
      Handle n anc ::
      (fix go (l : list node) : list handle :=
         match l with
         | [] => []
         | c :: r => subtree (n :: anc) c ++ go r
         end) cs
  | _ => []
  end.

Definition descendants (h : handle) : list handle :=
  drop 1 (subtree (ancestors h) (self h)).

(** The declarations of a [style] attribute, as [.css] reads them: split on
    [;], each piece cut at its first [:]; a piece with no name or no value
    is appended to the value of the declaration before it. *)
Definition styleDeclarations (style : string) : list (string * string) :=
  snd (foldl (fun '(key, decls) piece =>
                let '(k, v) := Js.cutAt ":" piece in
                if Js.truthy k && Js.truthy (default EmptyString v) then
                  (Some (Js.trim k), (Js.trim k, Js.trim (default EmptyString v)) :: decls)
                else
                  match key, Js.trimEnd piece with
                  | Some cur, String c t =>
                      (key, (cur, default EmptyString (Js.get decls cur)
                                  +:+ ";" +:+ String c t) :: decls)
                  | _, _ => (key, decls)
                  end)
             (None, [])
             (Js.splitOn ";" (Js.trim style))).

Definition cssOf (h : handle) (prop : string) : option string :=
  match getAttr (self h) "style" with
  | Some style => Js.get (styleDeclarations style) prop
  | None => None
  end.

(** The instance, for a given parser of markup. *)
Definition cheerio (parse : string -> error + node) : Cheerio := {|
  document := node;
  element := handle;
  load := parse;
  select doc sel := filter (fun h => matches sel h) (subtree [] doc);
  find hs sel := h ← hs; filter (fun d => matches sel d) (descendants h);
  closest hs sel :=
    h ← hs; first (filter (fun a => matches sel a) (h :: ancestorHandles (ancestors h)));
  text_of hs := foldr (fun h t => textContent (self h) +:+ t) EmptyString hs;
  attr hs name := match hs with h :: _ => getAttr (self h) name | [] => None end;
  css hs prop := match hs with h :: _ => cssOf h prop | [] => None end
|}.

End Tree.

(** ** The earlier tree-based revision *)

Module Legacy.
Section Parser.
Context `{Cheerio}.

(** ['#search .g, div.g, div.hlcw0c, div.kvH3mc, div.Ww4FFb'] *)
Definition resultContainersSelector : selector :=
  [ Descendant (Compound [Id "search"]) [Class "g"];
    Compound [Tag "div"; Class "g"]; Compound [Tag "div"; Class "hlcw0c"];
    Compound [Tag "div"; Class "kvH3mc"]; Compound [Tag "div"; Class "Ww4FFb"] ].

(** The first [if] of the loop body: ads and empty containers. *)
Definition isAdOrIrrelevant (resultElement : list element) : bool :=
  nonEmpty (closest resultElement [Compound [AttrEq "data-text-ad" "1"]]) ||
  nonEmpty (find resultElement
              [Compound [Tag "span"; Contains "Ad"];
               Compound [Tag "span"; Contains "Sponsored"]]) ||
  nonEmpty (find resultElement
              [Compound [Tag "div"; AttrEq "role" "region";
                         AttrSub "aria-label" "Ads"]]) ||
  bool_decide (css resultElement "display" = Some "none") ||
  negb (Js.truthy (Js.trim (text_of
          (find resultElement [Compound [Attr "data-hveid"; Attr "data-ved"]])))).

(** The second [if]: "People also ask", "Related searches" and the like. *)
Definition isSpecialBlock (resultElement : list element) : bool :=
  nonEmpty (find resultElement
              [Compound [Tag "div"; AttrEq "data-nosnippet" "true"]]) ||
  nonEmpty (find resultElement [Compound [Tag "g-accordion-expander"]]) ||
  nonEmpty (find resultElement (sectionHeading "People also ask")) ||
  nonEmpty (find resultElement (sectionHeading "Related searches")) ||
  nonEmpty (find resultElement (sectionHeading "Top stories")) ||
  nonEmpty (find resultElement (sectionHeading "Videos")).

Definition extractTitle (resultElement : list element) : string :=
  let titleElement := first (find resultElement [Compound [Tag "h3"]]) in
  let title := Js.trim (text_of titleElement) in
  let title :=
    if negb (Js.truthy title) && nonEmpty (find titleElement [Compound [Tag "a"]])
    then Js.trim (text_of (first (find titleElement [Compound [Tag "a"]])))
    else title in
  let title :=
    if negb (Js.truthy title)
    then Js.trim (text_of (first (find resultElement
           [Descendant (Compound [Tag "a"; AttrEq "h" "ID=SERP"]) [Tag "h3"]])))
    else title in
  if negb (Js.truthy title)
  then Js.trim (text_of (first (find resultElement
         [Compound [Tag "div"; AttrEq "role" "heading"; AttrEq "aria-level" "3"]])))
  else title.

Definition deniedFragments : list string :=
  [ "google.com/search"; "google.com/imgres"; "google.com/maps";
    "google.com/preferences"; "accounts.google.com"; "support.google.com";
    "policies.google.com"; "webcache.googleusercontent.com" ].

Definition urlRejected (url : option string) (seen : gset string) : bool :=
  match url with
  | None => true
  | Some u =>
      negb (Js.truthy u) || negb (Js.startsWith u "http") ||
      existsb (Js.includes u) deniedFragments ||
      bool_decide (u ∈ seen)
  end.

Definition extractSnippet (resultElement : list element) : string :=
  let snippet :=
    Js.trim (text_of (first (find resultElement
      [ Compound [Tag "div"; Class "VwiC3b"]; Compound [Tag "div"; Class "s"];
        Compound [Tag "div"; Class "st"]; Compound [Tag "div"; AttrEq "data-sncf" "1"];
        Compound [Tag "div"; Class "Uroaid"] ]))) in
  let snippet :=
    if negb (Js.truthy snippet)
    then Js.trim (text_of (first (find resultElement
           [ Compound [Tag "div"; AttrEq "style" "-webkit-line-clamp:2"];
             Compound [Tag "div"; AttrEq "style" "-webkit-line-clamp:3"] ])))
    else snippet in
  if negb (Js.truthy snippet) then
    Js.trim (foldl (fun potentialSnippet spanEl =>
                      let spanText := Js.trim (text_of [spanEl]) in
                      if (20 <? String.length spanText)%nat
                      then potentialSnippet +:+ spanText +:+ " "
                      else potentialSnippet)
                   EmptyString
                   (find resultElement [Compound [Tag "span"]]))
  else snippet.

Definition accepted (title url snippet : string) : bool :=
  Js.truthy title && Js.truthy url &&
  (5 <? String.length title)%nat && (10 <? String.length snippet)%nat.

Definition containerCallback (st : acc) (el : element) : signal * acc :=
  if (10 <=? length (results st))%nat then (Break, st)
  else
    let resultElement := [el] in
    if isAdOrIrrelevant resultElement then (Continue, st)
    else if isSpecialBlock resultElement then (Continue, st)
    else if isTooShort resultElement then (Continue, st)
    else
      let title := extractTitle resultElement in
      let linkElement := first (find resultElement [Compound [Tag "a"; Attr "href"]]) in
      let url := unwrapRedirect <$> attr linkElement "href" in
      if urlRejected url (seenUrls st) then (Continue, st)
      else
        let url := default EmptyString url in
        let snippet := extractSnippet resultElement in
        if accepted title url snippet then
          (Continue,
           Acc (results st ++
                  [Result title url snippet "Bright Data SERP (Cheerio)"])
               ({[url]} ∪ seenUrls st))
        else (Continue, st).

Definition extractResults (doc : document) : list result :=
  results (each containerCallback (select doc resultContainersSelector) (Acc [] ∅)).

(** This revision loads the markup outside of any [try]: a failure of the
    library is thrown to the caller. *)
Definition parseGoogleHTMLWithCheerio (html query : string) : M (list result) :=
  if negb (Js.truthy html) then
    lift (console_write Warn
            [Str "PROXY_PARSE_WARN: HTML content is missing or not a string."]) ;;
    mret []
  else
    doc ← liftE (load html);
    let results := extractResults doc in
    if (length results =? 0)%nat then mret [fallbackResult query]
    else mret results.

End Parser.
End Legacy.

(** ** The regular-expression revision: [parseGoogleHTML] *)

Module Regex.

(** The patterns of this revision are sequences of literals and of starred
    or plussed character classes; at most one class is a capture group. *)
Inductive piece : Type :=
| Lit (s : string)
| Star (cls : ascii -> bool)       (* cls*, greedy *)
| Plus (cls : ascii -> bool)       (* cls+, greedy *)
| CaptureStar (cls : ascii -> bool)  (* (cls* ), greedy *)
| CaptureLazy (cls : ascii -> bool). (* (cls*?) *)

Definition pattern : Type := list piece.

Fixpoint stripPrefix (p s : string) : option string :=
  match p, s with
  | EmptyString, _ => Some s
  | String a p', String b s' => if Ascii.eqb a b then stripPrefix p' s' else None
  | String _ _, EmptyString => None
  end.

(** A greedy star: the longest run of [cls] first, then shorter ones, until
    the continuation [k] succeeds on what was taken and what is left. *)
Fixpoint greedy {R} (cls : ascii -> bool) (k : string -> string -> option R)
  (s : string) : option R :=
  match s with
  | String c s' =>
      if cls c then
        match greedy cls (fun taken => k (String c taken)) s' with
        | Some r => Some r
        | None => k EmptyString s
        end
      else k EmptyString s
  | EmptyString => k EmptyString s
  end.

(** A lazy star: the shortest run first. *)
Fixpoint lazy {R} (cls : ascii -> bool) (k : string -> string -> option R)
  (s : string) : option R :=
  match k EmptyString s with
  | Some r => Some r
  | None =>
      match s with
      | String c s' => if cls c then lazy cls (fun taken => k (String c taken)) s' else None
      | EmptyString => None
      end
  end.

(** A match of the pattern at the start of [s]: the captured text and what
    follows the match. *)
Fixpoint matchHere (ps : pattern) (captured : string) (s : string)
  : option (string * string) :=
  match ps with
  | [] => Some (captured, s)
  | Lit l :: ps' =>
      match stripPrefix l s with
      | Some s' => matchHere ps' captured s'
      | None => None
      end
  | Star cls :: ps' => greedy cls (fun _ => matchHere ps' captured) s
  | Plus cls :: ps' =>
      match s with
      | String c s' =>
          if cls c then greedy cls (fun _ => matchHere ps' captured) s' else None
      | EmptyString => None
      end
  | CaptureStar cls :: ps' => greedy cls (fun taken => matchHere ps' taken) s
  | CaptureLazy cls :: ps' => lazy cls (fun taken => matchHere ps' taken) s
  end.

(** The loop [while ((m = pattern.exec(html)) !== null)] of a global pattern:
    the captures of the successive matches, each search starting where the
    match before it ended.  The scan goes through the input once: where a
    match starts, its capture is recorded and the code units it covers are
    skipped.  (The patterns of this revision match no empty string.) *)
Fixpoint execFrom (ps : pattern) (skip : nat) (s : string) : list string :=
  match skip, s with
  | S k, String _ s' => execFrom ps k s'
  | S _, EmptyString => []
  | O, _ =>
      match matchHere ps EmptyString s with
      | Some (captured, rest) =>
          captured ::
          match s with
          | String _ s' =>
              execFrom ps (String.length s' - String.length rest) s'
          | EmptyString => []
          end
      | None =>
          match s with
          | String _ s' => execFrom ps 0 s'
          | EmptyString => []
          end
      end
  end.

(** [s.replace(/pattern/g, by)], scanned the same way. *)
Fixpoint replaceFrom (ps : pattern) (by_ : string) (skip : nat) (s : string)
  : string :=
  match skip, s with
  | S k, String _ s' => replaceFrom ps by_ k s'
  | S _, EmptyString => EmptyString
  | O, _ =>
      match matchHere ps EmptyString s with
      | Some (_, rest) =>
          by_ +:+
          match s with
          | String _ s' =>
              replaceFrom ps by_ (String.length s' - String.length rest) s'
          | EmptyString => EmptyString
          end
      | None =>
          match s with
          | String c s' => String c (replaceFrom ps by_ 0 s')
          | EmptyString => EmptyString
          end
      end
  end.

Definition exec_g (ps : pattern) (s : string) : list string := execFrom ps 0 s.

Definition replace_g (ps : pattern) (by_ : string) (s : string) : string :=
  replaceFrom ps by_ 0 s.

Definition isNot (c : ascii) : ascii -> bool := fun x => negb (Ascii.eqb x c).

(** [.] matches every code unit but the line terminators. *)
Definition dot (c : ascii) : bool :=
  negb (Ascii.eqb c "010") && negb (Ascii.eqb c "013").

Definition dq : string := String "034" EmptyString.

(** [/<h3[^>]*class=Q[^Q]*LC20lb[^Q]*Q[^>]*>([^<]* )<\/h3>/g], with [Q] for
    the double quote. *)
Definition titlePattern : pattern :=
  [ Lit "<h3"; Star (isNot ">"); Lit ("class=" +:+ dq); Star (isNot "034");
    Lit "LC20lb"; Star (isNot "034"); Lit dq; Star (isNot ">"); Lit ">";
    CaptureStar (isNot "<"); Lit "</h3>" ].

(** [/<a[^>]*href=Q([^Q]* )Q[^>]*>/g] *)
Definition linkPattern : pattern :=
  [ Lit "<a"; Star (isNot ">"); Lit ("href=" +:+ dq); CaptureStar (isNot "034");
    Lit dq; Star (isNot ">"); Lit ">" ].

(** [/<div class=Q[^Q]*VwiC3b[^Q]*Q[^>]*>(.*?)<\/div>/g] *)
Definition snippetPattern : pattern :=
  [ Lit ("<div class=" +:+ dq); Star (isNot "034"); Lit "VwiC3b";
    Star (isNot "034"); Lit dq; Star (isNot ">"); Lit ">";
    CaptureLazy dot; Lit "</div>" ].

(** "Filter external links only" *)
Definition isExternalLink (url : string) : bool :=
  Js.startsWith url "http" &&
  negb (Js.includes url "google.com/url") &&
  negb (Js.includes url "google.com/search") &&
  negb (Js.includes url "webcache.googleusercontent.com") &&
  negb (Js.includes url "accounts.google") &&
  negb (Js.includes url "policies.google").

(** "Clean up HTML tags and entities" *)
Definition cleanSnippet (raw : string) : string :=
  Js.trim
    (replace_g [Plus Js.isWhiteSpace] " "
    (replace_g [Lit "&#39;"] "'"
    (replace_g [Lit "&quot;"] dq
    (replace_g [Lit "&gt;"] ">"
    (replace_g [Lit "&lt;"] "<"
    (replace_g [Lit "&amp;"] "&"
    (replace_g [Lit "<"; Star (isNot ">"); Lit ">"] EmptyString raw))))))).

(** The entry pushed when nothing was matched up. *)
Definition fallbackResult (query : string) : result :=
  Result ("Search results for " +:+ quoted query) (searchUrl query)
         "No specific results extracted. Try using different keywords."
         "Bright Data SERP".

(** The loop [for (let i = 0; i < maxResults; i++)], from index [i] on. *)
Fixpoint matchUp (steps i : nat) (titles links snippets : list string)
  (query : string) (results : list result) : list result :=
  match steps with
  | O => results
  | S steps' =>
      matchUp steps' (S i) titles links snippets query
        (match titles !! i, links !! i with
         | Some t, Some l =>
             if Js.truthy t && Js.truthy l then
               results ++
               [Result t l
                  (match snippets !! i with
                   | Some sn => if Js.truthy sn then sn
                                else "Result for " +:+ quoted query +:+ " from Google search"
                   | None => "Result for " +:+ quoted query +:+ " from Google search"
                   end)
                  "Bright Data SERP"]
             else results
         | _, _ => results
         end)
  end.

(** The body of the [try] throws nothing, so its [catch] is never entered. *)
Definition parseGoogleHTML (html query : string) : list result :=
  if negb (Js.truthy html) then []
  else
    let titles :=
      (fun t => Js.trim (replace_g [Lit "&amp;"] "&" t)) <$> exec_g titlePattern html in
    let links := filter (fun u => isExternalLink u = true) (exec_g linkPattern html) in
    let snippets :=
      filter (fun sn => Js.truthy sn && (5 <? String.length sn)%nat = true)
             (cleanSnippet <$> exec_g snippetPattern html) in
    let maxResults := Nat.min (Nat.min (length titles) (length links)) 10 in
    let results := matchUp maxResults 0 titles links snippets query [] in
    if (length results =? 0)%nat then
      results ++ [fallbackResult query]
    else results.

End Regex.


(** ** The dispatcher: the two endpoints of the current revision *)

(** ToBoolean; [None] is [undefined]. *)
Definition toBoolean (v : option value) : bool :=
  match v with
  | None | Some JNull => false
  | Some (JBool b) => b
  | Some (JNum n) => negb (n =? 0)%Z
  | Some (JStr s) => Js.truthy s
  | Some (JArr _) | Some (JObj _) => true
  end.

Definition typeOf (v : option value) : string :=
  match v with
  | None => "undefined"
  | Some (JBool _) => "boolean"
  | Some (JNum _) => "number"
  | Some (JStr _) => "string"
  | Some JNull | Some (JArr _) | Some (JObj _) => "object"
  end.

(** [object[name]] for a name that no prototype defines: the own property
    written last, or [undefined]. *)
Definition getProp (v : value) (name : string) : option value :=
  match v with
  | JObj props => Js.get (reverse props) name
  | _ => None
  end.

Definition typeError : error :=
  Error "Cannot convert object to primitive value" None.

(** ToString, as [String(v)] and the templates apply it.  An array joins the
    strings of its items, null items being empty.  A plain object answers
    through [Object.prototype.toString], unless it has a property of its own
    called [toString]: what a parser stores there is not callable, the
    inherited [valueOf] answers the object itself, and the conversion throws
    a TypeError. *)
Fixpoint toStringValue (v : value) : error + string :=
  match v with
  | JNull => inr "null"
  | JBool b => inr (if b then "true" else "false")
  | JNum n => inr (pretty n)
  | JStr s => inr s
  | JArr items =>
      (fix join (l : list value) : error + string :=
         match l with
         | [] => inr EmptyString
         | x :: r =>
             match (match x with JNull => inr EmptyString | _ => toStringValue x end),
                   join r with
             | inr a, inr b =>
                 inr (match r with [] => a | _ => a +:+ "," +:+ b end)
             | inl e, _ => inl e
             | _, inl e => inl e
             end
         end) items
  | JObj props =>
      match Js.get props "toString" with
      | Some _ => inl typeError
      | None => inr "[object Object]"
      end
  end.

Definition toStringJs (v : option value) : error + string :=
  match v with
  | None => inr "undefined"
  | Some x => toStringValue x
  end.

(** The text of a query that is a string. *)
Definition queryText (query : option value) : string :=
  match query with
  | Some (JStr s) => s
  | _ => EmptyString
  end.

(** [!query || typeof query !== 'string' || query.trim().length === 0] *)
Definition isInvalidQuery (query : option value) : bool :=
  negb (toBoolean query) ||
  negb (String.eqb (typeOf query) "string") ||
  (String.length (Js.trim (queryText query)) =? 0)%nat.

Record request : Type := Request {
  headers : list (string * string);
  body : option value;      (* req.body *)
  query_params : value      (* req.query *)
}.

Record config : Type := Config {
  apiToken : string;
  config_zone : string;
  apiUrl : string
}.

(** The JSON sent back: the rejections of a request, the upstream failure,
    the result envelope, and the answer of the [catch]. *)
Inductive payload : Type :=
| Rejected (error message : string) (debug : list (string * datum))
| UpstreamFailed (error : string) (upstream_status : nat)
                 (upstream_statusText details : string)
| Found (query : string) (results : list result) (totalResults : nat)
        (source timestamp : string)
| Failed (error message timestamp : string).

Record response : Type := Response { code : nat; sent : payload }.

(** [new Date().toISOString()] *)
Definition now : IO string := fun w => (clock w, w).

(** [error.message || 'Unknown error'] *)
Definition messageOf (e : error) : string :=
  if Js.truthy (message e) then message e else "Unknown error".

(** [req.body || {}] *)
Definition bodyOrEmpty (req : request) : value :=
  if toBoolean (body req) then default (JObj []) (body req) else JObj [].

(** The search address of the structured-body endpoint. *)
Definition postTarget (query num hl gl : string) : string :=
  "https://www.google.com/search?q=" +:+ Js.encodeURIComponent query
  +:+ "&num=" +:+ num +:+ "&hl=" +:+ hl +:+ "&gl=" +:+ gl.

(** The search address of the query-string endpoint. *)
Definition getTarget (query num hl gl : string) : string :=
  "https://www.google.com/search?q=" +:+ Js.encodeURIComponent query
  +:+ "&num=" +:+ Js.encodeURIComponent num
  +:+ "&hl=" +:+ Js.encodeURIComponent hl
  +:+ "&gl=" +:+ Js.encodeURIComponent gl.

(** The call to the upstream API: bearer token, user agent, and the body
    with the zone, the search address and the raw format. *)
Definition upstreamRequestFor (cfg : config) (userAgent target : string)
  : upstream_request :=
  UpstreamRequest (apiUrl cfg) ("Bearer " +:+ apiToken cfg) userAgent
                  (config_zone cfg) target "raw".

Section Dispatcher.
Context `{Cheerio}.
Variable BRIGHT_DATA_CONFIG : config.

(** The network: what the upstream API answers to a request, or the
    rejection of the call. *)
Variable fetch : upstream_request -> error + upstream_response.

(** [await fetch(BRIGHT_DATA_CONFIG.apiUrl, ...)]: the call is recorded. *)
Definition callUpstream (userAgent target : string) : M upstream_response :=
  fun w =>
    let req := upstreamRequestFor BRIGHT_DATA_CONFIG userAgent target in
    (fetch req, World (console w) (network w ++ [req]) (clock w)).

(** [app.post('/api/brightdata', ...)], for the parser the revision calls. *)
Definition postBrightdataWith (parser : string -> string -> M (list result))
  (req : request) : IO response :=
  let incomingContentType := Js.get (headers req) "content-type" in
  let bodyAsReceivedByExpress := Json (body req) in
  console_write Log
    [Str "PROXY_DEBUG: Path /api/brightdata. Content-Type:";
     from_option Str Undefined incomingContentType;
     Str "Body from express.json():"; bodyAsReceivedByExpress] ;;
  try_catch
    (let source := bodyOrEmpty req in
     let query := getProp source "query" in
     let num := default (JNum 10) (getProp source "num") in
     let hl := default (JStr "en") (getProp source "hl") in
     let gl := default (JStr "us") (getProp source "gl") in
     queryValueDebug ← liftE (toStringJs query);
     let queryTypeDebug := typeOf query in
     if isInvalidQuery query then
       lift (console_write Err
               [Str "PROXY_ERROR: Invalid query parameter. Extracted Query:";
                Str queryValueDebug; Str queryTypeDebug; bodyAsReceivedByExpress]) ;;
       mret (Response 400
               (Rejected "Invalid query parameter" "Query must be a non-empty string."
                  [("debug_proxy_received_body", bodyAsReceivedByExpress);
                   ("debug_proxy_extracted_query_value", Str queryValueDebug);
                   ("debug_proxy_extracted_query_type", Str queryTypeDebug)]))
     else if negb (Js.truthy (apiToken BRIGHT_DATA_CONFIG)) then
       lift (console_write Err
               [Str "PROXY_ERROR: Bright Data API token not configured on server."]) ;;
       mret (Response 500
               (Rejected "Configuration error" "Bright Data API token not configured" []))
     else
       let query := queryText query in
       num ← liftE (toStringValue num);
       hl ← liftE (toStringValue hl);
       gl ← liftE (toStringValue gl);
       brightDataResponse ←
         callUpstream "Mirror Search Proxy v1.0" (postTarget query num hl gl);
       if negb (ok brightDataResponse) then
         errorText ← liftE (text brightDataResponse);
         lift (console_write Err
                 [Str "PROXY_ERROR: Bright Data API call failed. Status:";
                  Str (pretty (status brightDataResponse));
                  Str (Js.substring errorText 0 (Some 200%Z))]) ;;
         mret (Response 502
                 (UpstreamFailed "Bright Data API error"
                    (status brightDataResponse) (statusText brightDataResponse)
                    (Js.substring errorText 0 (Some 200%Z))))
       else
         htmlContent ← liftE (text brightDataResponse);
         results ← parser htmlContent query;
         timestamp ← lift now;
         if (length results =? 0)%nat then
           mret (Response 200
                   (Found query
                      [Result ("No results for " +:+ quoted query) (searchUrl query)
                         "No search results were found. Try using different keywords or check your search terms."
                         "Bright Data SERP"]
                      1 "Bright Data SERP" timestamp))
         else
           mret (Response 200
                   (Found query results (length results) "Bright Data SERP" timestamp)))
    (fun error =>
       console_write Err [Str "PROXY_ERROR: Unhandled error in /api/brightdata:";
                          Str (message error)] ;;
       timestamp ← now;
       mret (Response 500 (Failed "Proxy server error" (messageOf error) timestamp))).

Definition postBrightdata : request -> IO response :=
  postBrightdataWith (fun html query => lift (parseGoogleHTMLWithCheerio html query)).

(** [app.get('/api/brightdataget', ...)], likewise: what precedes the [try]
    can reject the handler. *)
Definition getBrightdatagetWith (parser : string -> string -> M (list result))
  (req : request) : M response :=
  lift (console_write Log
          [Str "GET_ROUTE_ENTRY: Path /api/brightdataget. Headers:";
           Json (Some (JObj (prod_map id JStr <$> headers req)))]) ;;
  let query := getProp (query_params req) "query" in
  let num := default (JStr "10") (getProp (query_params req) "num") in
  let hl := default (JStr "en") (getProp (query_params req) "hl") in
  let gl := default (JStr "us") (getProp (query_params req) "gl") in
  let queryParamsForDebug := Json (Some (query_params req)) in
  shown ← liftE (toStringJs query);
  lift (console_write Log
          [Str "PROXY_DEBUG_GET: Path /api/brightdataget. Extracted Query from URL:";
           Str shown; queryParamsForDebug]) ;;
  if isInvalidQuery query then
    lift (console_write Err
            [Str "PROXY_ERROR_GET: Invalid query parameter. Extracted Query:";
             Str shown; Str (typeOf query)]) ;;
    mret (Response 400
            (Rejected "Invalid query parameter"
               "Query must be a non-empty string (from GET)."
               [("debug_proxy_received_query_params", queryParamsForDebug)]))
  else
    lift (try_catch
      (if negb (Js.truthy (apiToken BRIGHT_DATA_CONFIG)) then
         lift (console_write Err
                 [Str "PROXY_ERROR_GET: Bright Data API token not configured on server."]) ;;
         mret (Response 500
                 (Rejected "Configuration error" "Bright Data API token not configured" []))
       else
         let query := queryText query in
         num ← liftE (toStringValue num);
         hl ← liftE (toStringValue hl);
         gl ← liftE (toStringValue gl);
         let target := getTarget query num hl gl in
         lift (console_write Log
                 [Str "PROXY_INTERNAL_POST_TO_BRIGHTDATA_GET_ROUTE: Request to BrightData:";
                  Str target]) ;;
         brightDataResponse ←
           callUpstream "Mirror Search Proxy v1.0 (via GET->POST)" target;
         if negb (ok brightDataResponse) then
           errorText ← liftE (text brightDataResponse);
           lift (console_write Err
                   [Str "PROXY_ERROR_GET: Bright Data API call failed. Status:";
                    Str (pretty (status brightDataResponse));
                    Str (Js.substring errorText 0 (Some 200%Z))]) ;;
           mret (Response 502
                   (UpstreamFailed "Bright Data API error (via GET->POST)"
                      (status brightDataResponse) (statusText brightDataResponse)
                      (Js.substring errorText 0 (Some 200%Z))))
         else
           htmlContent ← liftE (text brightDataResponse);
           results ← parser htmlContent query;
           timestamp ← lift now;
           if (length results =? 0)%nat then
             mret (Response 200
                     (Found query
                        [Result ("No results for " +:+ backslash
                                 +:+ quoted (query +:+ backslash))
                           (searchUrl query)
                           "No search results were found. Try using different keywords."
                           "Bright Data SERP (via GET->POST Proxy)"]
                        1 "Bright Data SERP (via GET->POST Proxy)" timestamp))
           else
             mret (Response 200
                     (Found query results (length results)
                        "Bright Data SERP (via GET->POST Proxy)" timestamp)))
      (fun error =>
         console_write Err
           [Str "PROXY_ERROR_GET: Unhandled error in /api/brightdataget:";
            Str (message error);
            from_option Str Undefined (stack error)] ;;
         timestamp ← now;
         mret (Response 500
                 (Failed "Proxy server error (via GET->POST)" (messageOf error)
                    timestamp)))).

Definition getBrightdataget : request -> M response :=
  getBrightdatagetWith (fun html query => lift (parseGoogleHTMLWithCheerio html query)).

End Dispatcher.

(** ** Sample pages

    Trees of the kind the library builds for a result page, used to run the
    parser.  [sampleLoad] is a table that stands for the library's parser on
    these pages. *)

Module Sample.
Import Tree.

Definition startWorld : world := World [] [] "2025-01-01T00:00:00.000Z".

(** A block of the shape the parser looks for first. *)
Definition block (marker : list node) (href heading snippetText : string) : node :=
  Elem "div" [("class", "tF2Cxc")]
    (marker ++
     [ Elem "div" [("class", "yuRUbf")]
         [ Elem "a" [("href", href)] [ Elem "h3" [] [TextNode heading] ] ];
       Elem "div" [("class", "VwiC3b")] [ TextNode snippetText ] ]).

Definition rustBlock : node :=
  block [] "https://www.rust-lang.org/" "Rust Programming Language"
    "A language empowering everyone to build reliable and efficient software.".

Definition bookBlock : node :=
  block [] "/url?q=https://doc.rust-lang.org/book/&sa=U&ved=2ahUKE"
    "The Rust Programming Language - Book"
    "An introductory book about Rust, written by members of the community.".

(** The same shape as the organic blocks, with an ad marker in front. *)
Definition adBlock : node :=
  block [Elem "span" [] [TextNode "Ad"]]
    "https://courses.example.com/rust" "Learn Rust in 30 days - Online course"
    "Enroll today and start writing systems software with our mentors.".

Definition page (blocks : list node) : node :=
  Elem "html" [] [ Elem "head" [] []; Elem "body" [] [ Elem "div" [("id", "search")] blocks ] ].

Definition rustPage : node := page [rustBlock; adBlock; bookBlock].
Definition emptyPage : node := page [].

Definition sampleLoad (html : string) : error + node :=
  if String.eqb html "<html><!-- rust programming --></html>" then inr rustPage
  else if String.eqb html "<html></html>" then inr emptyPage
  else inl (Error "no such sample" None).

Definition sampleCheerio : Cheerio := Tree.cheerio sampleLoad.

(** Markup for the regular-expression revision, written with single quotes
    where the patterns expect double ones. *)
Definition doubleQuotes (s : string) : string :=
  Regex.replace_g [Regex.Lit "'"] Regex.dq s.

Definition twiceLinkedMarkup : string :=
  doubleQuotes
    ("<div><h3 class='LC20lb'>Rust Programming Language</h3>"
     +:+ "<a href='https://www.rust-lang.org/'>rust-lang.org</a>"
     +:+ "<h3 class='LC20lb'>Rust - Install</h3>"
     +:+ "<a href='https://www.rust-lang.org/'>Install Rust</a></div>").

(** A structured body whose query is an object with a property of its own
    called [toString], as [JSON.parse] builds it from
    [{"query": {"toString": 1}}], and the same for the query string
    [?query[toString]=1]. *)
Definition objectQueryBody : request :=
  Request [("content-type", "application/json")]
          (Some (JObj [("query", JObj [("toString", JNum 1)])]))
          (JObj []).

Definition objectQueryString : request :=
  Request [] None (JObj [("query", JObj [("toString", JStr "1")])]).

(** A valid request in both shapes. *)
Definition rustBody : request :=
  Request [("content-type", "application/json")]
          (Some (JObj [("query", JStr "rust programming"); ("num", JNum 5)]))
          (JObj []).

Definition rustQueryString : request :=
  Request [] None (JObj [("query", JStr "rust programming"); ("hl", JStr "en")]).

Definition sampleConfig : config :=
  Config "token-123" "serp_api1" "https://api.brightdata.com/request".

(** An upstream that is out of service, and one that answers with an empty
    body. *)
Definition outOfService (_ : upstream_request) : error + upstream_response :=
  inr (UpstreamResponse 503 "Service Unavailable"
         (inr "upstream connect error or disconnect/reset before headers")).

Definition emptyAnswer (_ : upstream_request) : error + upstream_response :=
  inr (UpstreamResponse 200 "OK" (inr EmptyString)).

End Sample.

(** ** The other routes, and the endpoint of the earlier revisions *)

(** The JSON of [GET /health]. *)
Record health_report : Type := HealthReport {
  health_status : string;
  service : string;
  version : string;
  health_timestamp : string;
  hasApiToken : bool;          (* !!BRIGHT_DATA_CONFIG.apiToken *)
  health_zone : string;
  health_endpoint : string
}.

(** [app.get('/health', ...)] *)
Definition getHealth (cfg : config) : IO health_report :=
  timestamp ← now;
  mret (HealthReport "healthy" "Bright Data Proxy" "1.0.0" timestamp
          (Js.truthy (apiToken cfg)) (config_zone cfg) (apiUrl cfg)).



(** ** Sample pages *)

Module MoreSamples.
Import Tree.

(** A page of twelve organic blocks with links of their own. *)
Definition numberedBlock (n : nat) : node :=
  Sample.block [] ("https://example.com/page/" +:+ pretty n)
    ("Result number " +:+ pretty n)
    "A sufficiently long description of the page behind this result.".

Definition twelveBlocks : list handle :=
  (fun n => Handle (numberedBlock n) []) <$> seq 0 12.

(** A block with a link and a heading, and too little text. *)
Definition shortBlock : node :=
  Elem "div" [("class", "tF2Cxc")]
    [ Elem "div" [("class", "yuRUbf")]
        [ Elem "a" [("href", "https://example.com/")] [ Elem "h3" [] [TextNode "Example"] ] ];
      Elem "div" [("class", "VwiC3b")] [ TextNode "Short text." ] ].



Definition rustAnswer (_ : upstream_request) : error + upstream_response :=
  inr (UpstreamResponse 200 "OK" (inr "<html><!-- rust programming --></html>")).

Definition noTokenConfig : config :=
  Config EmptyString "serp_api1" "https://api.brightdata.com/request".

(** A block of the organic shape inside a paid placement, inside a result
    container: the page, and the inner block with its ancestors. *)
Definition sponsoredBlock : node :=
  Sample.block [] "https://courses.example.com/rust-weekend"
    "Master Rust in a Weekend"
    "Become productive in Rust with live mentoring and graded exercises.".

Definition placement : node := Elem "div" [("data-text-ad", "1")] [sponsoredBlock].
Definition container : node := Elem "div" [("class", "g")] [placement].
Definition searchNode : node := Elem "div" [("id", "search")] [container].
Definition bodyNode : node := Elem "body" [] [searchNode].
Definition nestedAdPage : node := Elem "html" [] [Elem "head" [] []; bodyNode].

Definition sponsoredHandle : handle :=
  Handle sponsoredBlock [placement; container; searchNode; bodyNode; nestedAdPage].

Definition nestedAdCheerio : Cheerio := Tree.cheerio (fun _ => inr nestedAdPage).




End MoreSamples.

(** ** The predicates of the statements *)

(** What an entry pushed by the loop of the current revision satisfies. *)
Definition passedGate (r : result) : Prop :=
  (3 < String.length (title r))%nat ∧
  (10 < String.length (snippet r))%nat ∧
  Js.startsWith (url r) "http" = true ∧
  Forall (fun d => Js.includes (url r) d = false) deniedFragments.

(** The invariant of the loop. *)
Definition loopInvariant (st : acc) : Prop :=
  (length (results st) <= 10)%nat ∧
  NoDup (url <$> results st) ∧
  (∀ u, u ∈ seenUrls st ↔ u ∈ url <$> results st) ∧
  Forall passedGate (results st).

(** One turn of a loop pushed the entry made of [t], [u] and [s], and these
    passed the acceptance gate: the title is longer than 3, the URL begins
    with http, holds no fragment of the denylist and was not seen before,
    and the snippet is longer than 10. *)
Definition emitted (denied : list string) (t u s : string) (before after : acc)
  : Prop :=
  after = Acc (results before ++ [Result t u s "Bright Data SERP (Cheerio)"])
              ({[u]} ∪ seenUrls before) ∧
  (3 < String.length t)%nat ∧
  Js.startsWith u "http" = true ∧
  Forall (fun d => Js.includes u d = false) denied ∧
  (u ∉ seenUrls before) ∧
  (10 < String.length s)%nat.

(** The structured-body request [req] passes the validation and the
    configuration check with the query [q], and [ureq] is the upstream call
    it makes. *)
Definition postReachesUpstream (cfg : config) (req : request) (q : string)
  (ureq : upstream_request) : Prop :=
  getProp (bodyOrEmpty req) "query" = Some (JStr q) ∧
  isInvalidQuery (Some (JStr q)) = false ∧
  Js.truthy (apiToken cfg) = true ∧
  ∃ num hl gl,
    toStringValue (default (JNum 10) (getProp (bodyOrEmpty req) "num")) = inr num ∧
    toStringValue (default (JStr "en") (getProp (bodyOrEmpty req) "hl")) = inr hl ∧
    toStringValue (default (JStr "us") (getProp (bodyOrEmpty req) "gl")) = inr gl ∧
    ureq = upstreamRequestFor cfg "Mirror Search Proxy v1.0" (postTarget q num hl gl).

(** The same for the query-string request. *)
Definition getReachesUpstream (cfg : config) (req : request) (q : string)
  (ureq : upstream_request) : Prop :=
  getProp (query_params req) "query" = Some (JStr q) ∧
  isInvalidQuery (Some (JStr q)) = false ∧
  Js.truthy (apiToken cfg) = true ∧
  ∃ num hl gl,
    toStringValue (default (JStr "10") (getProp (query_params req) "num")) = inr num ∧
    toStringValue (default (JStr "en") (getProp (query_params req) "hl")) = inr hl ∧
    toStringValue (default (JStr "us") (getProp (query_params req) "gl")) = inr gl ∧
    ureq = upstreamRequestFor cfg "Mirror Search Proxy v1.0 (via GET->POST)"
             (getTarget q num hl gl).

(** The placeholder entries that the endpoints put in place of an empty
    result list. *)
Definition postPlaceholder (query : string) : result :=
  Result ("No results for " +:+ quoted query) (searchUrl query)
    "No search results were found. Try using different keywords or check your search terms."
    "Bright Data SERP".

Definition getPlaceholder (query : string) : result :=
  Result ("No results for " +:+ backslash +:+ quoted (query +:+ backslash))
    (searchUrl query)
    "No search results were found. Try using different keywords."
    "Bright Data SERP (via GET->POST Proxy)".

(** What the parser writes to the console for an empty markup string: its
    entry line and the warning that the content is missing. *)
Definition loadFailureLines : list console_line :=
  [ Line Log [Str "PROXY_PARSE_RAW_HTML_START:"; Str EmptyString];
    Line Warn [Str "PROXY_PARSE_WARN: HTML content is missing or not a string."] ].

(** Every code unit of a string satisfies [p]. *)
Fixpoint allChars (p : ascii -> bool) (s : string) : bool :=
  match s with
  | String c s' => p c && allChars p s'
  | EmptyString => true
  end.

(** A code unit below 128. *)
Definition isAscii (c : ascii) : bool := (N_of_ascii c <? 128)%N.

(** What [encodeURIComponent] writes: the unreserved marks and the percent
    sign of the escapes. *)
Definition isEncoded (c : ascii) : bool :=
  Js.isUnreservedURI c || Ascii.eqb c "%".

(** The two variables of the loop after a turn hold what they held before,
    and possibly one entry more. *)
Definition grewFrom (before after : acc) : Prop :=
  results before `prefix_of` results after ∧ seenUrls before ⊆ seenUrls after.

(** What every entry of a list returned by the regular-expression parser
    satisfies. *)
Definition regexEntry (r : result) : Prop :=
  Js.truthy (title r) = true ∧ Js.truthy (snippet r) = true ∧
  Js.startsWith (url r) "http" = true.

(** The answers of an endpoint, by status. *)
Definition wellFormedAnswer (answer : response) : Prop :=
  match sent answer with
  | Found _ rs total _ _ =>
      code answer = 200%nat ∧ total = length rs ∧
      (1 <= length rs <= 10)%nat ∧
      NoDup (url <$> rs) ∧
      Forall (fun r => Js.startsWith (url r) "http" = true) rs
  | Rejected _ _ _ => code answer = 400%nat ∨ code answer = 500%nat
  | UpstreamFailed _ upstream _ details =>
      code answer = 502%nat ∧ (String.length details <= 200)%nat ∧
      ((upstream < 200)%nat ∨ (299 < upstream)%nat)
  | Failed _ msg _ => code answer = 500%nat ∧ msg ≠ EmptyString
  end.

(** * Properties *)

(** ** The string primitives *)

Lemma substring_length_le s n :
  (String.length (Js.substring s 0 (Some (Z.of_nat n))) <= n)%nat.
Proof.
  unfold Js.substring.
  set (len := Z.of_nat (String.length s)).
  set (a := Z.max 0 (Z.min 0 len)).
  set (b := Z.max 0 (Z.min (Z.of_nat n) len)).
  assert (Hcount : (Z.to_nat (Z.max a b - Z.min a b) <= n)%nat) by lia.
  revert Hcount. generalize (Z.to_nat (Z.max a b - Z.min a b)) as m.
  generalize (Z.to_nat (Z.min a b)) as k. clear.
  intros k m Hm. transitivity m; [|done]. clear Hm.
  revert k m. induction s as [|c s IH]; intros k m.
  - destruct k, m; simpl; lia.
  - destruct k as [|k]; simpl.
    + destruct m as [|m]; simpl; [lia|].
      specialize (IH 0%nat m). lia.
    + apply IH.
Qed.

Lemma startsWith_spec s p : Js.startsWith s p = true ↔ ∃ r, s = p +:+ r.
Proof.
  unfold Js.startsWith. revert s. induction p as [|c p IH]; intros s.
  - split; [intros _; by exists s | by destruct s].
  - destruct s as [|d s]; simpl.
    + split; [done | by intros [r Hr]].
    + destruct (ascii_dec c d) as [->|Hne].
      * rewrite IH. split; intros [r Hr]; exists r.
        -- by rewrite Hr.
        -- by injection Hr.
      * split; [done|]. intros [r Hr]. injection Hr as Hc _. by destruct Hne.
Qed.

Lemma append_assoc s1 s2 s3 : (s1 +:+ s2) +:+ s3 = s1 +:+ (s2 +:+ s3).
Proof.
  induction s1 as [|c s1 IH]; [done|].
  change (String c ((s1 +:+ s2) +:+ s3) = String c (s1 +:+ (s2 +:+ s3))).
  by rewrite IH.
Qed.

Lemma startsWith_app_l p s : Js.startsWith (p +:+ s) p = true.
Proof. apply startsWith_spec. by exists s. Qed.

Lemma startsWith_trans s p q :
  Js.startsWith s p = true → Js.startsWith p q = true → Js.startsWith s q = true.
Proof.
  rewrite !startsWith_spec. intros [r ->] [r' ->].
  exists (r' +:+ r). apply append_assoc.
Qed.

Lemma searchUrl_http query : Js.startsWith (searchUrl query) "http" = true.
Proof.
  apply startsWith_trans with "https://www.google.com/search?q=";
    [apply startsWith_app_l | reflexivity].
Qed.

(** ** The loop of the current parser *)

Lemma each_invariant {A S} (P : S → Prop) (cb : S → A → signal * S) :
  (∀ st x, P st → P (cb st x).2) →
  ∀ xs st, P st → P (each cb xs st).
Proof.
  intros Hstep xs. induction xs as [|x xs IH]; intros st Hst; simpl; [done|].
  specialize (Hstep st x Hst). destruct (cb st x) as [[] st']; simpl in *; eauto.
Qed.

Section ParserFacts.
Context `{Cheerio}.

(** One turn of the loop either leaves the two variables as they were, or
    pushes the entry extracted from the block, which then passed every test
    of the body. *)
Lemma blockCallback_cases st el :
  (blockCallback st el).2 = st ∨
  ∃ href title,
    (length (results st) < 10)%nat ∧
    isAdOrSpecial [el] = false ∧
    isTooShort [el] = false ∧
    linkAndTitle [el] = Some (Some href, title) ∧
    urlRejected (Some (unwrapRedirect href)) (seenUrls st) = false ∧
    accepted title (unwrapRedirect href) (extractSnippet [el]) = true ∧
    (blockCallback st el).2 =
      Acc (results st ++
             [Result title (unwrapRedirect href) (extractSnippet [el])
                "Bright Data SERP (Cheerio)"])
          ({[unwrapRedirect href]} ∪ seenUrls st).
Proof.
  unfold blockCallback.
  destruct (10 <=? length (results st))%nat eqn:Hfull; [by left|].
  apply Nat.leb_gt in Hfull.
  destruct (isAdOrSpecial [el]) eqn:Had; [by left|].
  destruct (isTooShort [el]) eqn:Hshort; [by left|].
  destruct (linkAndTitle [el]) as [[href title]|] eqn:Hlink; [|by left].
  destruct (urlRejected (unwrapRedirect <$> href) (seenUrls st)) eqn:Hrej; [by left|].
  destruct href as [href|]; [|done]. simpl in *.
  destruct (accepted title (unwrapRedirect href) (extractSnippet [el])) eqn:Hacc;
    [right|by left].
  by exists href, title.
Qed.

Lemma urlRejected_false u seen :
  urlRejected (Some u) seen = false →
  Js.startsWith u "http" = true ∧
  Forall (fun d => Js.includes u d = false) deniedFragments ∧
  u ∉ seen.
Proof.
  unfold urlRejected. rewrite !orb_false_iff, !negb_false_iff.
  intros [[[_ Hhttp] Hdeny] Hseen]. split; [done|]. split.
  - apply Forall_forall. intros d Hd.
    destruct (Js.includes u d) eqn:Hinc; [|done].
    assert (existsb (Js.includes u) deniedFragments = true); [|congruence].
    apply existsb_exists. exists d. split; [|done]. by apply list_elem_of_In.
  - by apply bool_decide_eq_false in Hseen.
Qed.

Lemma accepted_true t u s :
  accepted t u s = true →
  (3 < String.length t)%nat ∧ (10 < String.length s)%nat.
Proof.
  unfold accepted. rewrite !andb_true_iff, !Nat.ltb_lt. tauto.
Qed.

Lemma loopInvariant_init : loopInvariant (Acc [] ∅).
Proof.
  repeat split; simpl; try lia; try constructor; set_solver.
Qed.

Lemma loopInvariant_step st el :
  loopInvariant st → loopInvariant (blockCallback st el).2.
Proof.
  intros (Hlen & Hnodup & Hseen & Hgate).
  destruct (blockCallback_cases st el)
    as [->|(href & t & Hroom & _ & _ & _ & Hurl & Hacc & ->)]; [done|].
  apply urlRejected_false in Hurl as (Hhttp & Hdeny & Hfresh).
  apply accepted_true in Hacc as [Ht Hs].
  unfold loopInvariant. simpl. rewrite fmap_app, length_app. simpl.
  split; [lia|]. split; [|split].
  - apply NoDup_app. split; [done|]. split; [|apply NoDup_singleton].
    intros u Hu Hin. apply list_elem_of_singleton in Hin as ->.
    by apply Hfresh, Hseen.
  - intros u. rewrite elem_of_union, elem_of_singleton, elem_of_app,
      list_elem_of_singleton, Hseen. tauto.
  - apply Forall_app. split; [done|]. apply Forall_singleton.
    unfold passedGate; simpl. by split_and!.
Qed.

Lemma extractResults_invariant doc :
  (length (extractResults doc) <= 10)%nat ∧
  NoDup (url <$> extractResults doc) ∧
  Forall passedGate (extractResults doc).
Proof.
  unfold extractResults.
  destruct (each_invariant loopInvariant blockCallback loopInvariant_step
              (select doc resultBlocksSelector) (Acc [] ∅) loopInvariant_init)
    as (? & ? & _ & ?).
  done.
Qed.

(** What the parser returns, case by case. *)
Lemma parseGoogleHTMLWithCheerio_returns html query w :
  (parseGoogleHTMLWithCheerio html query w).1 =
    if negb (Js.truthy html) then []
    else match load html with
         | inl _ => [loadErrorResult query]
         | inr doc =>
             if (length (extractResults doc) =? 0)%nat then [fallbackResult query]
             else extractResults doc
         end.
Proof.
  unfold parseGoogleHTMLWithCheerio.
  destruct (Js.truthy html); simpl; [|done].
  destruct (load html) as [e|doc]; simpl; [done|].
  by destruct (length (extractResults doc) =? 0)%nat.
Qed.

End ParserFacts.

(** ** The regular-expression parser *)

Lemma matchUp_length steps i titles links snippets query rs :
  (length (Regex.matchUp steps i titles links snippets query rs)
   <= length rs + steps)%nat.
Proof.
  revert i rs. induction steps as [|steps IH]; intros i rs; simpl; [lia|].
  etransitivity; [apply IH|].
  destruct (titles !! i) as [t|]; [|lia].
  destruct (links !! i) as [l|]; [|lia].
  destruct (Js.truthy t && Js.truthy l); [|lia].
  rewrite length_app. simpl. lia.
Qed.

Lemma parseGoogleHTML_length html query :
  (length (Regex.parseGoogleHTML html query) <= 10)%nat.
Proof.
  unfold Regex.parseGoogleHTML.
  destruct (negb (Js.truthy html)); simpl; [lia|].
  match goal with
  | |- context [Regex.matchUp ?n 0 ?t ?l ?s query []] =>
      pose proof (matchUp_length n 0 t l s query []) as Hlen;
      generalize dependent (Regex.matchUp n 0 t l s query [])
  end.
  intros rs Hlen. simpl in Hlen.
  destruct (length rs =? 0)%nat eqn:Hzero.
  - apply Nat.eqb_eq in Hzero. rewrite length_app. simpl. lia.
  - lia.
Qed.

(** ** The claims about the parser *)

(** The empty markup string is answered by the empty array. *)
Lemma parseGoogleHTMLWithCheerio_empty `{Cheerio} query w :
  (parseGoogleHTMLWithCheerio EmptyString query w).1 = [].
Proof. by rewrite parseGoogleHTMLWithCheerio_returns. Qed.

(** C1, as the specification states it, fails on the empty markup string:
    the parser of the current revision returns the empty array for it. *)
Lemma C1_empty_markup_empty_array :
  (parseGoogleHTMLWithCheerio (H:=Sample.sampleCheerio)
     EmptyString "rust programming" Sample.startWorld).1 = [].
Proof. reflexivity. Qed.

(** C1, amended: for every non-empty markup string and every query,
    [parseGoogleHTMLWithCheerio] returns a non-empty list; when the loop
    extracts no organic result the list is exactly the one placeholder entry
    for the query, when the library fails to load the markup it is exactly
    the load-error entry, and otherwise it is the list of extracted results. *)
Theorem C1_nonempty_markup_nonempty_list `{Cheerio} html query w :
  html ≠ EmptyString →
  (parseGoogleHTMLWithCheerio html query w).1 ≠ [] ∧
  (∀ doc, load html = inr doc → extractResults doc = [] →
     (parseGoogleHTMLWithCheerio html query w).1 = [fallbackResult query]) ∧
  (∀ doc, load html = inr doc → extractResults doc ≠ [] →
     (parseGoogleHTMLWithCheerio html query w).1 = extractResults doc) ∧
  (∀ e, load html = inl e →
     (parseGoogleHTMLWithCheerio html query w).1 = [loadErrorResult query]).
Proof.
  intros Hhtml. rewrite parseGoogleHTMLWithCheerio_returns.
  destruct html as [|c html]; [done|]. simpl.
  split_and!.
  - destruct (load _) as [e|doc]; [done|].
    destruct (extractResults doc) as [|r rs]; done.
  - intros doc -> ->. done.
  - intros doc -> Hne. by destruct (extractResults doc).
  - intros e ->. done.
Qed.

Lemma C1_nonempty_markup_nonempty_list_witness :
  "<html></html>" ≠ EmptyString ∧
  (parseGoogleHTMLWithCheerio (H:=Sample.sampleCheerio)
     "<html></html>" "zzz_no_such_thing_123" Sample.startWorld).1
  = [fallbackResult "zzz_no_such_thing_123"].
Proof.
  split; [discriminate|].
  refine (proj1 (proj2 (C1_nonempty_markup_nonempty_list (H:=Sample.sampleCheerio)
            "<html></html>" "zzz_no_such_thing_123" Sample.startWorld _))
            Sample.emptyPage _ _);
    [discriminate | reflexivity | reflexivity].
Defined.

(** C2, as the specification states it, fails for the parser of the
    regular-expression revision: two links to one address give two entries
    with the same [url]. *)
Lemma C2_regex_parser_repeats_url :
  ¬ NoDup (url <$> Regex.parseGoogleHTML Sample.twiceLinkedMarkup "rust").
Proof.
  vm_compute. intros Hnodup. apply NoDup_cons in Hnodup as [Hfresh _].
  apply Hfresh. constructor.
Qed.

(** C2, amended: for every markup string and every query, the list returned
    by the tree-based parser [parseGoogleHTMLWithCheerio] has at most 10
    entries and their [url] fields are pairwise distinct; the list returned
    by the regular-expression parser [parseGoogleHTML] has at most 10
    entries. *)
Theorem C2_bounded_and_distinct :
  (∀ (H : Cheerio) html query w,
     let rs := (parseGoogleHTMLWithCheerio html query w).1 in
     (length rs <= 10)%nat ∧ NoDup (url <$> rs)) ∧
  (∀ html query, (length (Regex.parseGoogleHTML html query) <= 10)%nat).
Proof.
  split; [|apply parseGoogleHTML_length].
  intros H html query w. simpl. rewrite parseGoogleHTMLWithCheerio_returns.
  destruct (negb (Js.truthy html)); [split; [simpl; lia | constructor]|].
  destruct (load html) as [e|doc]; [split; [simpl; lia | apply NoDup_singleton]|].
  destruct (extractResults_invariant doc) as (Hlen & Hnodup & _).
  destruct (length (extractResults doc) =? 0)%nat; [|done].
  split; [simpl; lia | apply NoDup_singleton].
Qed.

(** Once ten entries are collected the loop stops, whatever is left. *)
Lemma each_blockCallback_full `{Cheerio} blocks st :
  (10 <= length (results st))%nat → each blockCallback blocks st = st.
Proof.
  intros Hfull. destruct blocks as [|el blocks]; [done|]. simpl.
  unfold blockCallback. apply Nat.leb_le in Hfull. by rewrite Hfull.
Qed.

(** C3, amended: for a candidate block for which the ad and special-feature
    test of the loop holds (nested in a paid placement, holding an Ad or
    Sponsored marker, holding one of the known non-organic containers, or
    styled invisible), the turn of the loop for that block yields no entry,
    whatever its title, link and snippet are: it leaves the result list and
    the seen URLs as they were, and the loop over any list of candidates
    gives the same outcome with the block taken out. *)
Theorem C3_flagged_block_contributes_nothing `{Cheerio} (el : element) :
  isAdOrSpecial [el] = true →
  (∀ st, (blockCallback st el).2 = st) ∧
  (∀ before after st,
     each blockCallback (before ++ el :: after) st
     = each blockCallback (before ++ after) st).
Proof.
  intros Hflag.
  assert (Hturn : ∀ st, blockCallback st el = (Break, st)
                        ∨ blockCallback st el = (Continue, st)).
  { intros st. unfold blockCallback. rewrite Hflag.
    destruct (10 <=? length (results st))%nat; auto. }
  split.
  - intros st. by destruct (Hturn st) as [-> | ->].
  - intros before. induction before as [|x before IH]; intros after st; simpl.
    + unfold blockCallback at 1. rewrite Hflag.
      destruct (10 <=? length (results st))%nat eqn:Hfull; [|done].
      apply Nat.leb_le in Hfull. by rewrite each_blockCallback_full.
    + destruct (blockCallback st x) as [[] st']; [apply IH | done].
Qed.

Lemma C3_flagged_block_contributes_nothing_witness :
  isAdOrSpecial (H:=Sample.sampleCheerio) [Tree.Handle Sample.adBlock []] = true ∧
  (blockCallback (H:=Sample.sampleCheerio) (Acc [] ∅)
     (Tree.Handle Sample.adBlock [])).2 = Acc [] ∅ ∧
  each (blockCallback (H:=Sample.sampleCheerio))
    ([Tree.Handle Sample.rustBlock []] ++ Tree.Handle Sample.adBlock [] :: [])
    (Acc [] ∅)
  = each (blockCallback (H:=Sample.sampleCheerio))
      ([Tree.Handle Sample.rustBlock []] ++ []) (Acc [] ∅).
Proof.
  split; [reflexivity|]. split.
  - exact (proj1 (C3_flagged_block_contributes_nothing (H:=Sample.sampleCheerio)
                    (Tree.Handle Sample.adBlock []) eq_refl) (Acc [] ∅)).
  - exact (proj2 (C3_flagged_block_contributes_nothing (H:=Sample.sampleCheerio)
                    (Tree.Handle Sample.adBlock []) eq_refl)
                 [Tree.Handle Sample.rustBlock []] [] (Acc [] ∅)).
Defined.

(** C4, as the specification states it, fails on a wrapper whose target is
    a wrapper again: the second application unwraps once more. *)
Lemma C4_nested_wrapper_not_idempotent :
  unwrapRedirect (unwrapRedirect "/url?q=/url?q=https://example.com/")
  ≠ unwrapRedirect "/url?q=/url?q=https://example.com/".
Proof. vm_compute. discriminate. Qed.

(** A URL that does not begin with the wrapper prefix is left as it is. *)
Lemma unwrapRedirect_plain url :
  Js.startsWith url "/url?q=" = false → unwrapRedirect url = url.
Proof. intros Hplain. unfold unwrapRedirect. by rewrite Hplain, andb_false_r. Qed.

(** A URL that begins with http is no wrapper. *)
Lemma http_not_wrapper url :
  Js.startsWith url "http" = true → Js.startsWith url "/url?q=" = false.
Proof.
  intros Hhttp. destruct (Js.startsWith url "/url?q=") eqn:Hwrap; [|done].
  apply startsWith_spec in Hhttp as [r ->].
  apply startsWith_spec in Hwrap as [r' Hr']. discriminate Hr'.
Qed.

(** C4, amended: the unwrap step is idempotent on every URL whose unwrapped
    form does not begin with the wrapper prefix [/url?q=] again: applying the
    step to that form yields the same URL.  This is so in particular when
    the unwrapped form passes the URL validation that follows the step, so
    every URL of the result list is left as it is by the unwrap step. *)
Theorem C4_unwrap_idempotent_on_unwrapped :
  (∀ u, Js.startsWith (unwrapRedirect u) "/url?q=" = false →
        unwrapRedirect (unwrapRedirect u) = unwrapRedirect u) ∧
  (∀ u seen, urlRejected (Some (unwrapRedirect u)) seen = false →
             unwrapRedirect (unwrapRedirect u) = unwrapRedirect u) ∧
  (∀ (H : Cheerio) doc,
     Forall (fun r => unwrapRedirect (url r) = url r) (extractResults doc)).
Proof.
  split_and!.
  - intros u. apply unwrapRedirect_plain.
  - intros u seen Hok. apply urlRejected_false in Hok as (Hhttp & _ & _).
    by apply unwrapRedirect_plain, http_not_wrapper.
  - intros H doc. destruct (extractResults_invariant doc) as (_ & _ & Hgate).
    eapply Forall_impl; [exact Hgate|]. intros r (_ & _ & Hhttp & _).
    by apply unwrapRedirect_plain, http_not_wrapper.
Qed.

Lemma C4_unwrap_idempotent_on_unwrapped_witness :
  Js.startsWith
    (unwrapRedirect "/url?q=https://doc.rust-lang.org/book/&sa=U&ved=2ahUKE")
    "/url?q=" = false ∧
  unwrapRedirect
    (unwrapRedirect "/url?q=https://doc.rust-lang.org/book/&sa=U&ved=2ahUKE")
  = unwrapRedirect "/url?q=https://doc.rust-lang.org/book/&sa=U&ved=2ahUKE".
Proof.
  split; [reflexivity|].
  apply (proj1 C4_unwrap_idempotent_on_unwrapped
           "/url?q=https://doc.rust-lang.org/book/&sa=U&ved=2ahUKE").
  reflexivity.
Defined.

(** ** The acceptance gate *)

Lemma blockCallback_gate `{Cheerio} st el :
  (blockCallback st el).2 = st ∨
  ∃ href t,
    linkAndTitle [el] = Some (Some href, t) ∧
    emitted deniedFragments t (unwrapRedirect href) (extractSnippet [el])
      st (blockCallback st el).2.
Proof.
  destruct (blockCallback_cases st el)
    as [?|(href & t & _ & _ & _ & Hlink & Hurl & Hacc & Hpush)]; [by left|].
  right. exists href, t. split; [done|].
  apply urlRejected_false in Hurl as (? & ? & ?).
  apply accepted_true in Hacc as [? ?].
  by repeat split.
Qed.

Lemma legacy_containerCallback_gate `{Cheerio} st el :
  (Legacy.containerCallback st el).2 = st ∨
  ∃ href,
    attr (first (find [el] [Compound [Tag "a"; Attr "href"]])) "href" = Some href ∧
    emitted Legacy.deniedFragments (Legacy.extractTitle [el]) (unwrapRedirect href)
      (Legacy.extractSnippet [el]) st (Legacy.containerCallback st el).2.
Proof.
  unfold Legacy.containerCallback.
  destruct (10 <=? length (results st))%nat; [by left|].
  destruct (Legacy.isAdOrIrrelevant [el]); [by left|].
  destruct (Legacy.isSpecialBlock [el]); [by left|].
  destruct (isTooShort [el]); [by left|].
  destruct (attr _ "href") as [href|] eqn:Hhref; [|by left].
  cbn [fmap option_fmap option_map default from_option].
  destruct (Legacy.urlRejected (Some (unwrapRedirect href)) (seenUrls st))
    eqn:Hrej; [by left|].
  destruct (Legacy.accepted _ _ _) eqn:Hacc; [right|by left].
  exists href. split; [done|].
  unfold Legacy.urlRejected in Hrej.
  rewrite !orb_false_iff, !negb_false_iff in Hrej.
  destruct Hrej as [[[_ Hhttp] Hdeny] Hseen].
  unfold Legacy.accepted in Hacc.
  rewrite !andb_true_iff, !Nat.ltb_lt in Hacc.
  destruct Hacc as [[[_ _] Ht] Hs].
  split_and!; [done | lia | done | | by apply bool_decide_eq_false in Hseen | done].
  apply Forall_forall. intros d Hd.
  destruct (Js.includes (unwrapRedirect href) d) eqn:Hinc; [|done].
  assert (existsb (Js.includes (unwrapRedirect href)) Legacy.deniedFragments = true);
    [|congruence].
  apply existsb_exists. exists d. split; [|done]. by apply list_elem_of_In.
Qed.

(** C6: a turn of the loop either drops the block, leaving the result list
    and the seen URLs as they were, or pushes the entry made of the title,
    the unwrapped link and the snippet extracted from the block, and then
    the title is longer than 3, the URL begins with http, holds no fragment
    of the denylist and is not a duplicate, and the snippet is longer than
    10.  The loop body is a total function: a dropped block raises nothing.
    This holds for the loop of the current revision, so that every entry of
    its outcome passed the gate, and for the loop of the earlier tree-based
    revision. *)
Theorem C6_emitted_only_through_gate :
  (∀ (H : Cheerio) st el,
     (blockCallback st el).2 = st ∨
     ∃ href t,
       linkAndTitle [el] = Some (Some href, t) ∧
       emitted deniedFragments t (unwrapRedirect href) (extractSnippet [el])
         st (blockCallback st el).2) ∧
  (∀ (H : Cheerio) doc, Forall passedGate (extractResults doc)) ∧
  (∀ (H : Cheerio) st el,
     (Legacy.containerCallback st el).2 = st ∨
     ∃ href,
       attr (first (find [el] [Compound [Tag "a"; Attr "href"]])) "href" = Some href ∧
       emitted Legacy.deniedFragments (Legacy.extractTitle [el])
         (unwrapRedirect href) (Legacy.extractSnippet [el])
         st (Legacy.containerCallback st el).2).
Proof.
  split_and!.
  - intros H. apply blockCallback_gate.
  - intros H doc. apply extractResults_invariant.
  - intros H. apply legacy_containerCallback_gate.
Qed.

(** C10: every entry of the list returned by [parseGoogleHTMLWithCheerio],
    extracted or placeholder, has a [url] that begins with http. *)
Theorem C10_urls_begin_with_http `{Cheerio} html query w :
  Forall (fun r => Js.startsWith (url r) "http" = true)
         (parseGoogleHTMLWithCheerio html query w).1.
Proof.
  rewrite parseGoogleHTMLWithCheerio_returns.
  destruct (negb (Js.truthy html)); [constructor|].
  destruct (load html) as [e|doc].
  { apply Forall_singleton. apply searchUrl_http. }
  destruct (length (extractResults doc) =? 0)%nat.
  { apply Forall_singleton. apply searchUrl_http. }
  destruct (extractResults_invariant doc) as (_ & _ & Hgate).
  eapply Forall_impl; [exact Hgate|]. by intros r (_ & _ & ? & _).
Qed.

(** ** The dispatcher *)

(** The queries that the validation refuses: everything but a string with
    something else than white space in it. *)
Lemma isInvalidQuery_spec query :
  isInvalidQuery query = true ↔
  ∀ s, query = Some (JStr s) → Js.trim s = EmptyString.
Proof.
  unfold isInvalidQuery.
  destruct query as [[| | |s| |]|]; simpl; rewrite ?orb_true_r;
    try (split; [intros _ s' [=] | done]).
  rewrite orb_false_r, orb_true_iff, Nat.eqb_eq. split.
  - intros [Hs|Hs] s' [= <-].
    + by destruct s.
    + by destruct (Js.trim s).
  - intros Hs. right. by rewrite (Hs s eq_refl).
Qed.

Section DispatcherFacts.
Variable cfg : config.
Variable fetch : upstream_request -> error + upstream_response.
Variable parser : string -> string -> M (list result).

(** The structured-body endpoint answers 400 to an invalid query that can be
    written out as a string, and calls nothing. *)
Lemma post_invalid_query req w shown :
  isInvalidQuery (getProp (bodyOrEmpty req) "query") = true →
  toStringJs (getProp (bodyOrEmpty req) "query") = inr shown →
  ∃ debug line1 line2,
    postBrightdataWith cfg fetch parser req w =
      (Response 400
         (Rejected "Invalid query parameter" "Query must be a non-empty string." debug),
       World (console w ++ [line1; line2]) (network w) (clock w)).
Proof.
  intros Hinvalid Hshown. unfold postBrightdataWith.
  do 3 eexists.
  unfold mbind, IO_bind, io_bind, try_catch, M_bind, m_bind, liftE, lift.
  cbn [console_write console network clock fst snd].
  rewrite Hshown, Hinvalid.
  cbn [console_write console network clock fst snd mret M_ret m_ret].
  rewrite <- app_assoc. reflexivity.
Qed.

(** The query-string endpoint, likewise. *)
Lemma get_invalid_query req w shown :
  isInvalidQuery (getProp (query_params req) "query") = true →
  toStringJs (getProp (query_params req) "query") = inr shown →
  ∃ debug line1 line2 line3,
    getBrightdatagetWith cfg fetch parser req w =
      (inr (Response 400
              (Rejected "Invalid query parameter"
                 "Query must be a non-empty string (from GET)." debug)),
       World (console w ++ [line1; line2; line3]) (network w) (clock w)).
Proof.
  intros Hinvalid Hshown. unfold getBrightdatagetWith.
  do 4 eexists.
  unfold mbind, IO_bind, io_bind, try_catch, M_bind, m_bind, liftE, lift.
  cbn [console_write console network clock fst snd].
  rewrite Hshown.
  cbn [console_write console network clock fst snd].
  rewrite Hinvalid.
  cbn [console_write console network clock fst snd mret M_ret m_ret].
  rewrite <- !app_assoc. reflexivity.
Qed.

End DispatcherFacts.

(** Unfolding the two monads of the handlers. *)
Ltac run_handler :=
  unfold mbind, mret, IO_bind, IO_ret, io_bind, io_ret, try_catch, M_bind, M_ret,
    m_bind, m_ret, liftE, lift, callUpstream, now;
  cbn [console_write console network clock fst snd queryText negb].

(** C5: the claim holds for the queries that can be written out as a string
    (lemmas [post_invalid_query] and [get_invalid_query]), and fails for a
    query that is an object with a property of its own called [toString]:
    the debugging line that writes the query out throws before the
    validation is reached.  The structured-body endpoint then answers 500
    from its [catch], and the query-string endpoint, which writes the query
    out before its [try], rejects without an answer.  Neither calls the
    upstream. *)
Theorem C5_object_query_not_answered_400 cfg fetch parser w :
  isInvalidQuery (getProp (bodyOrEmpty Sample.objectQueryBody) "query") = true ∧
  (postBrightdataWith cfg fetch parser Sample.objectQueryBody w).1
  = Response 500
      (Failed "Proxy server error" "Cannot convert object to primitive value" (clock w)) ∧
  network (postBrightdataWith cfg fetch parser Sample.objectQueryBody w).2 = network w ∧
  isInvalidQuery (getProp (query_params Sample.objectQueryString) "query") = true ∧
  (getBrightdatagetWith cfg fetch parser Sample.objectQueryString w).1 = inl typeError ∧
  network (getBrightdatagetWith cfg fetch parser Sample.objectQueryString w).2 = network w.
Proof. repeat split. Qed.

Section UpstreamFacts.
Variable cfg : config.
Variable fetch : upstream_request -> error + upstream_response.



End UpstreamFacts.

Section EmptyMarkup.
Context `{Cheerio}.
Variable cfg : config.
Variable fetch : upstream_request -> error + upstream_response.

Lemma parseGoogleHTMLWithCheerio_empty_run query w :
  parseGoogleHTMLWithCheerio EmptyString query w =
    ([], World (console w ++ loadFailureLines) (network w) (clock w)).
Proof.
  unfold parseGoogleHTMLWithCheerio, loadFailureLines. run_handler.
  change (Js.truthy EmptyString) with false. run_handler.
  rewrite <- app_assoc. reflexivity.
Qed.

Lemma post_empty_markup req w q ureq resp :
  postReachesUpstream cfg req q ureq →
  fetch ureq = inr resp → ok resp = true → text resp = inr EmptyString →
  ∃ line,
    postBrightdata cfg fetch req w =
      (Response 200 (Found q [postPlaceholder q] 1 "Bright Data SERP" (clock w)),
       World (console w ++ line :: loadFailureLines) (network w ++ [ureq]) (clock w)).
Proof.
  intros (Hq & Hvalid & Htoken & num & hl & gl & Hnum & Hhl & Hgl & ->)
    Hfetch Hok Htext.
  eexists. unfold postBrightdata, postBrightdataWith. run_handler.
  rewrite Hq. cbn [toStringJs toStringValue]. rewrite Hvalid, Htoken.
  run_handler. rewrite Hnum, Hhl, Hgl, Hfetch, Hok. run_handler.
  rewrite Htext, parseGoogleHTMLWithCheerio_empty_run. run_handler.
  rewrite <- app_assoc. reflexivity.
Qed.

Lemma get_empty_markup req w q ureq resp :
  getReachesUpstream cfg req q ureq →
  fetch ureq = inr resp → ok resp = true → text resp = inr EmptyString →
  ∃ line1 line2 line3,
    getBrightdataget cfg fetch req w =
      (inr (Response 200
              (Found q [getPlaceholder q] 1
                 "Bright Data SERP (via GET->POST Proxy)" (clock w))),
       World (console w ++ line1 :: line2 :: line3 :: loadFailureLines)
             (network w ++ [ureq]) (clock w)).
Proof.
  intros (Hq & Hvalid & Htoken & num & hl & gl & Hnum & Hhl & Hgl & ->)
    Hfetch Hok Htext.
  do 3 eexists. unfold getBrightdataget, getBrightdatagetWith. run_handler.
  rewrite Hq. cbn [toStringJs toStringValue]. run_handler.
  rewrite Hvalid, Htoken. run_handler.
  rewrite Hnum, Hhl, Hgl. run_handler. rewrite Hfetch, Hok. run_handler.
  rewrite Htext, parseGoogleHTMLWithCheerio_empty_run. run_handler.
  rewrite <- !app_assoc. reflexivity.
Qed.

End EmptyMarkup.

(** ** The parser and the endpoints on the sample pages *)

(** Ads and special blocks can be taken out of the candidate list all at
    once: the loop extracts from the other blocks only. *)
Lemma flagged_blocks_filtered `{Cheerio} blocks st :
  each blockCallback blocks st
  = each blockCallback (filter (fun el => isAdOrSpecial [el] = false) blocks) st.
Proof.
  revert st. induction blocks as [|el blocks IH]; intros st; [done|].
  destruct (isAdOrSpecial [el]) eqn:Hflag.
  - rewrite filter_cons_False by (rewrite Hflag; done).
    rewrite <- IH. simpl. unfold blockCallback at 1. rewrite Hflag.
    destruct (10 <=? length (results st))%nat eqn:Hfull; [|done].
    apply Nat.leb_le in Hfull. by rewrite each_blockCallback_full.
  - rewrite filter_cons_True by done. simpl.
    destruct (blockCallback st el) as [[] st']; [apply IH | done].
Qed.

(** Two organic blocks around an ad block: two entries, in the order of the
    page, the second with its redirect unwrapped. *)
Example sample_two_organic_one_ad :
  (parseGoogleHTMLWithCheerio (H:=Sample.sampleCheerio)
     "<html><!-- rust programming --></html>" "rust programming"
     Sample.startWorld).1
  = [ Result "Rust Programming Language" "https://www.rust-lang.org/"
        "A language empowering everyone to build reliable and efficient software."
        "Bright Data SERP (Cheerio)";
      Result "The Rust Programming Language - Book"
        "https://doc.rust-lang.org/book/"
        "An introductory book about Rust, written by members of the community."
        "Bright Data SERP (Cheerio)" ].
Proof. vm_compute. reflexivity. Qed.

(** No candidate block: the one placeholder entry for the query. *)
Example sample_no_candidate :
  (parseGoogleHTMLWithCheerio (H:=Sample.sampleCheerio)
     "<html></html>" "zzz_no_such_thing_123" Sample.startWorld).1
  = [ Result ("No organic results found for " +:+ quoted "zzz_no_such_thing_123")
        "https://www.google.com/search?q=zzz_no_such_thing_123"
        "Could not extract organic search results. Google's HTML structure might have changed or no relevant results were found."
        "Bright Data SERP (Cheerio Fallback)" ].
Proof. vm_compute. reflexivity. Qed.

(** A query that is not a string, and one of white space only, are answered
    400 by both endpoints. *)
Example sample_rejected_queries :
  code (postBrightdataWith Sample.sampleConfig Sample.outOfService
          (fun _ _ => mret [])
          (Request [] (Some (JObj [("query", JNum 42)])) (JObj []))
          Sample.startWorld).1 = 400%nat ∧
  match (getBrightdatagetWith Sample.sampleConfig Sample.outOfService
           (fun _ _ => mret [])
           (Request [] None (JObj [("query", JStr "   ")]))
           Sample.startWorld).1 with
  | inr answer => code answer = 400%nat
  | inl _ => False
  end.
Proof. split; reflexivity. Qed.

(** * Further properties of the code *)

(** ** The loop over the candidate blocks *)

Section LoopFacts.
Context `{Cheerio}.

(** The callback stops the iteration only when ten entries are collected,
    and then changes nothing. *)
Lemma blockCallback_break st el st' :
  blockCallback st el = (Break, st') →
  st' = st ∧ (10 <= length (results st))%nat.
Proof.
  unfold blockCallback.
  destruct (10 <=? length (results st))%nat eqn:Hfull.
  - intros [= <-]. by apply Nat.leb_le in Hfull.
  - destruct (isAdOrSpecial [el]); [done|].
    destruct (isTooShort [el]); [done|].
    destruct (linkAndTitle [el]) as [[href t]|]; [|done].
    destruct (urlRejected _ _); [done|].
    by destruct (accepted _ _ _).
Qed.

(** The loop over two lists in a row is the loop over the second, started
    where the loop over the first ended. *)
Lemma each_blockCallback_app xs ys st :
  each blockCallback (xs ++ ys) st
  = each blockCallback ys (each blockCallback xs st).
Proof.
  revert st. induction xs as [|x xs IH]; intros st; simpl; [done|].
  destruct (blockCallback st x) as [[] st'] eqn:Hturn; [apply IH|].
  apply blockCallback_break in Hturn as [-> Hfull].
  by rewrite each_blockCallback_full.
Qed.

(** A block that the callback passes over in every state can be taken out
    of any list of candidates. *)
Lemma passed_over_removable el :
  (∀ st, (blockCallback st el).2 = st) →
  ∀ before after st,
    each blockCallback (before ++ el :: after) st
    = each blockCallback (before ++ after) st.
Proof.
  intros Hsame before after st.
  rewrite !each_blockCallback_app. generalize (each blockCallback before st).
  clear st. intros st. simpl.
  destruct (blockCallback st el) as [[] st'] eqn:Hturn.
  - specialize (Hsame st). rewrite Hturn in Hsame. simpl in Hsame. by subst.
  - apply blockCallback_break in Hturn as [-> Hfull].
    by rewrite each_blockCallback_full.
Qed.

Lemma blockCallback_grew st el : grewFrom st (blockCallback st el).2.
Proof.
  destruct (blockCallback_cases st el)
    as [->|(href & t & _ & _ & _ & _ & _ & _ & ->)]; [done|].
  split; simpl; [by apply prefix_app_r | set_solver].
Qed.

Lemma each_blockCallback_grew blocks st :
  grewFrom st (each blockCallback blocks st).
Proof.
  revert st. induction blocks as [|el blocks IH]; intros st; simpl; [done|].
  pose proof (blockCallback_grew st el) as [Hres Hseen].
  destruct (blockCallback st el) as [[] st']; simpl in *; [|done].
  destruct (IH st') as [Hres' Hseen']. split; [by etrans | set_solver].
Qed.

End LoopFacts.

(** X1: a block whose trimmed text has fewer than 50 code units, or in which
    neither the link of the known containers nor any link with an address is
    found, yields no entry: its turn leaves the result list and the seen
    URLs as they were, and it can be taken out of any candidate list without
    changing the outcome of the loop. *)
Theorem short_or_linkless_block_yields_nothing `{Cheerio} (el : element) :
  isTooShort [el] = true ∨ linkAndTitle [el] = None →
  (∀ st, (blockCallback st el).2 = st) ∧
  (∀ before after st,
     each blockCallback (before ++ el :: after) st
     = each blockCallback (before ++ after) st).
Proof.
  intros Hskip.
  assert (Hsame : ∀ st, (blockCallback st el).2 = st).
  { intros st. unfold blockCallback.
    destruct (10 <=? length (results st))%nat; [done|].
    destruct (isAdOrSpecial [el]); [done|].
    destruct Hskip as [-> | Hnone]; [done|].
    destruct (isTooShort [el]); [done|]. by rewrite Hnone. }
  split; [done|]. by apply passed_over_removable.
Qed.

Lemma short_or_linkless_block_yields_nothing_witness :
  isTooShort (H:=Sample.sampleCheerio)
    [Tree.Handle MoreSamples.shortBlock []] = true ∧
  (blockCallback (H:=Sample.sampleCheerio) (Acc [] ∅)
     (Tree.Handle MoreSamples.shortBlock [])).2 = Acc [] ∅.
Proof.
  split; [reflexivity|].
  apply (proj1 (short_or_linkless_block_yields_nothing (H:=Sample.sampleCheerio)
                  (Tree.Handle MoreSamples.shortBlock []) (or_introl eq_refl))).
Defined.

(** X2: a block whose link, once unwrapped, is already among the seen URLs
    yields no entry, whatever its title and snippet. *)
Theorem seen_link_yields_nothing `{Cheerio} st (el : element) href t :
  linkAndTitle [el] = Some (Some href, t) →
  unwrapRedirect href ∈ seenUrls st →
  blockCallback st el = (Continue, st) ∨ blockCallback st el = (Break, st).
Proof.
  intros Hlink Hseen. unfold blockCallback.
  destruct (10 <=? length (results st))%nat; [by right|]. left.
  destruct (isAdOrSpecial [el]); [done|].
  destruct (isTooShort [el]); [done|].
  rewrite Hlink. cbn [fmap option_fmap option_map].
  assert (urlRejected (Some (unwrapRedirect href)) (seenUrls st) = true) as ->;
    [|done].
  unfold urlRejected. rewrite bool_decide_eq_true_2 by done.
  by rewrite !orb_true_r.
Qed.

Lemma seen_link_yields_nothing_witness :
  blockCallback (H:=Sample.sampleCheerio)
    (Acc [] {["https://doc.rust-lang.org/book/"]})
    (Tree.Handle Sample.bookBlock [])
  = (Continue, Acc [] {["https://doc.rust-lang.org/book/"]}).
Proof.
  destruct (seen_link_yields_nothing (H:=Sample.sampleCheerio)
              (Acc [] {["https://doc.rust-lang.org/book/"]})
              (Tree.Handle Sample.bookBlock [])
              "/url?q=https://doc.rust-lang.org/book/&sa=U&ved=2ahUKE"
              "The Rust Programming Language - Book")
    as [Hturn|Hturn].
  - reflexivity.
  - vm_compute. reflexivity.
  - exact Hturn.
  - exfalso. revert Hturn. vm_compute. discriminate.
Defined.

(** X3: the loop only appends.  The entries collected before a run of the
    loop are a prefix of the entries after it, in the same order, and no
    seen URL is forgotten; and the loop over a list of candidates followed
    by more candidates is the loop over the first list when that one ends
    with ten entries: the candidates after the tenth entry are not
    evaluated. *)
Theorem loop_appends_and_stops_at_ten `{Cheerio} (blocks : list element) st :
  grewFrom st (each blockCallback blocks st) ∧
  (∀ more,
     (10 <= length (results (each blockCallback blocks st)))%nat →
     each blockCallback (blocks ++ more) st = each blockCallback blocks st).
Proof.
  split; [apply each_blockCallback_grew|].
  intros more Hfull. rewrite each_blockCallback_app.
  by apply each_blockCallback_full.
Qed.

Lemma loop_appends_and_stops_at_ten_witness :
  (10 <= length (results (each (blockCallback (H:=Sample.sampleCheerio))
                            (take 10 MoreSamples.twelveBlocks) (Acc [] ∅))))%nat ∧
  each (blockCallback (H:=Sample.sampleCheerio))
    (take 10 MoreSamples.twelveBlocks ++ drop 10 MoreSamples.twelveBlocks)
    (Acc [] ∅)
  = each (blockCallback (H:=Sample.sampleCheerio))
      (take 10 MoreSamples.twelveBlocks) (Acc [] ∅).
Proof.
  assert (Hten : (10 <= length (results (each (blockCallback (H:=Sample.sampleCheerio))
                     (take 10 MoreSamples.twelveBlocks) (Acc [] ∅))))%nat).
  { vm_compute. lia. }
  split; [exact Hten|].
  exact (proj2 (loop_appends_and_stops_at_ten (H:=Sample.sampleCheerio)
                  (take 10 MoreSamples.twelveBlocks) (Acc [] ∅))
               (drop 10 MoreSamples.twelveBlocks) Hten).
Defined.

(** ** Percent-encoding and the unwrap step *)

Lemma append_nil_r s : s +:+ EmptyString = s.
Proof.
  induction s as [|c s IH]; [done|].
  change (String c (s +:+ EmptyString) = String c s). by rewrite IH.
Qed.

Lemma allChars_app p a b : allChars p (a +:+ b) = allChars p a && allChars p b.
Proof.
  induction a as [|c a IH]; [done|].
  change (p c && allChars p (a +:+ b) = p c && allChars p a && allChars p b).
  by rewrite IH, andb_assoc.
Qed.

Lemma plusToSpace_app a b :
  Js.plusToSpace (a +:+ b) = Js.plusToSpace a +:+ Js.plusToSpace b.
Proof.
  induction a as [|c a IH]; [done|].
  change (String (if Ascii.eqb c "+" then " "%char else c) (Js.plusToSpace (a +:+ b))
          = String (if Ascii.eqb c "+" then " "%char else c)
                   (Js.plusToSpace a +:+ Js.plusToSpace b)).
  by rewrite IH.
Qed.

(** What one code unit is written as. *)
Lemma encodeURIComponent_cons c s :
  Js.encodeURIComponent (String c s)
  = (if Js.isUnreservedURI c then String c EmptyString else Js.utf8Escape c)
    +:+ Js.encodeURIComponent s.
Proof. reflexivity. Qed.

Lemma encoded_char_alphabet c :
  allChars isEncoded
    (if Js.isUnreservedURI c then String c EmptyString else Js.utf8Escape c) = true.
Proof. destruct c as [[] [] [] [] [] [] [] []]; reflexivity. Qed.

Lemma percentDecode_plain c rest :
  Ascii.eqb c "%" = false →
  Js.percentDecode (String c rest) = String c (Js.percentDecode rest).
Proof.
  intros Hc. destruct rest as [|h [|l r]]; simpl; [done|done|].
  rewrite Hc. done.
Qed.

Lemma decode_encoded_char c rest :
  isAscii c = true →
  Js.percentDecode
    (Js.plusToSpace
       (if Js.isUnreservedURI c then String c EmptyString else Js.utf8Escape c)
     +:+ rest)
  = String c (Js.percentDecode rest).
Proof.
  intros Hc.
  destruct c as [[] [] [] [] [] [] [] []]; vm_compute in Hc; try discriminate Hc;
    clear Hc;
    first [ reflexivity | by apply percentDecode_plain ].
Qed.

Lemma formDecode_encodeURIComponent s :
  allChars isAscii s = true → Js.formDecode (Js.encodeURIComponent s) = s.
Proof.
  unfold Js.formDecode. induction s as [|c s IH]; [done|].
  intros [Hc Hs]%andb_true_iff.
  rewrite encodeURIComponent_cons, plusToSpace_app, decode_encoded_char by done.
  by rewrite IH.
Qed.

Lemma encodeURIComponent_alphabet s :
  allChars isEncoded (Js.encodeURIComponent s) = true.
Proof.
  induction s as [|c s IH]; [done|].
  by rewrite encodeURIComponent_cons, allChars_app, encoded_char_alphabet, IH.
Qed.

Lemma allChars_impl (p q : ascii → bool) s :
  (∀ c, p c = true → q c = true) → allChars p s = true → allChars q s = true.
Proof.
  intros Hpq. induction s as [|c s IH]; [done|]. simpl.
  intros [Hc Hs]%andb_true_iff. by rewrite (Hpq c Hc), IH.
Qed.

(** No code unit of the encoding is one of the delimiters of an address. *)
Lemma isEncoded_no_delimiter c :
  isEncoded c = true →
  negb (existsb (Ascii.eqb c) [ "&"; "="; "?"; "#"; "/"; "+"; " " ]%char) = true.
Proof. destruct c as [[] [] [] [] [] [] [] []]; vm_compute; congruence. Qed.

Lemma splitOn_cons sep s : ∃ w ws, Js.splitOn sep s = w :: ws.
Proof.
  induction s as [|c s (w & ws & IH)]; simpl; [by eexists _, _|].
  destruct (Ascii.eqb c sep); [by eexists _, _|]. rewrite IH. by eexists _, _.
Qed.

(** Cutting a string without the separator, followed by more text: it goes
    in front of the first piece of that text. *)
Lemma splitOn_app sep s tail w ws :
  allChars (fun c => negb (Ascii.eqb c sep)) s = true →
  Js.splitOn sep tail = w :: ws →
  Js.splitOn sep (s +:+ tail) = (s +:+ w) :: ws.
Proof.
  intros Hs Htail. induction s as [|c s IH]; [done|].
  simpl in Hs. apply andb_true_iff in Hs as [Hc Hs].
  apply negb_true_iff in Hc.
  change (String c s +:+ tail) with (String c (s +:+ tail)).
  cbn [Js.splitOn]. by rewrite Hc, (IH Hs).
Qed.

Lemma substring_whole s : String.substring 0 (String.length s) s = s.
Proof. induction s as [|c s IH]; [done|]. simpl. by rewrite IH. Qed.

(** [url.substring(url.indexOf('?'))] on a wrapper: from the question mark. *)
Lemma wrapper_query rest :
  Js.substring ("/url?q=" +:+ rest) (Js.indexOf ("/url?q=" +:+ rest) "?") None
  = "?q=" +:+ rest.
Proof.
  assert (Hindex : Js.indexOf ("/url?q=" +:+ rest) "?" = 4%Z).
  { by destruct rest. }
  rewrite Hindex. unfold Js.substring.
  change ("/url?q=" +:+ rest)
    with (String "/" (String "u" (String "r" (String "l" ("?q=" +:+ rest))))).
  cbn [String.length].
  set (n := String.length ("?q=" +:+ rest)).
  replace (Z.to_nat (Z.min (Z.max 0 (Z.min 4 (Z.of_nat (S (S (S (S n)))))))
                           (Z.of_nat (S (S (S (S n))))))) with 4%nat by lia.
  replace (Z.to_nat (Z.max (Z.max 0 (Z.min 4 (Z.of_nat (S (S (S (S n)))))))
                           (Z.of_nat (S (S (S (S n)))))
                     - Z.min (Z.max 0 (Z.min 4 (Z.of_nat (S (S (S (S n)))))))
                             (Z.of_nat (S (S (S (S n))))))) with n by lia.
  cbn [String.substring]. apply substring_whole.
Qed.

(** X4: [encodeURIComponent] writes nothing but letters, digits, the marks
    [- _ . ! ~ * ' ( )] and the percent sign of its escapes, so the query put
    into a search address holds none of the delimiters [& = ? # / +] and no
    space; and it leaves a text of letters, digits and marks as it is, so for
    such parameters (the defaults among them) the two endpoints ask for the
    same search address. *)
Theorem encoded_query_has_no_delimiter query :
  allChars isEncoded (Js.encodeURIComponent query) = true ∧
  allChars (fun c => negb (existsb (Ascii.eqb c)
                             [ "&"; "="; "?"; "#"; "/"; "+"; " " ]%char))
           (Js.encodeURIComponent query) = true ∧
  (allChars Js.isUnreservedURI query = true → Js.encodeURIComponent query = query) ∧
  (∀ num hl gl,
     allChars Js.isUnreservedURI num = true →
     allChars Js.isUnreservedURI hl = true →
     allChars Js.isUnreservedURI gl = true →
     getTarget query num hl gl = postTarget query num hl gl).
Proof.
  assert (Hsame : ∀ s, allChars Js.isUnreservedURI s = true →
                       Js.encodeURIComponent s = s).
  { intros s. induction s as [|c s IH]; [done|]. simpl.
    intros [Hc Hs]%andb_true_iff. rewrite Hc, (IH Hs). done. }
  split_and!.
  - apply encodeURIComponent_alphabet.
  - eapply allChars_impl; [apply isEncoded_no_delimiter|].
    apply encodeURIComponent_alphabet.
  - apply Hsame.
  - intros num hl gl Hnum Hhl Hgl. unfold getTarget, postTarget.
    by rewrite (Hsame num), (Hsame hl), (Hsame gl).
Qed.

Lemma encoded_query_has_no_delimiter_witness :
  allChars Js.isUnreservedURI "10" = true ∧
  allChars Js.isUnreservedURI "en" = true ∧
  allChars Js.isUnreservedURI "us" = true ∧
  getTarget "rust & go" "10" "en" "us" = postTarget "rust & go" "10" "en" "us".
Proof.
  split; [reflexivity|]. split; [reflexivity|]. split; [reflexivity|].
  apply (proj2 (proj2 (proj2 (encoded_query_has_no_delimiter "rust & go"))));
    reflexivity.
Defined.

(** X5: the unwrap step inverts the wrapping.  For a non-empty target made
    of code units below 128, the wrapper [/url?q=] followed by the
    percent-encoded target, alone or followed by further parameters, is
    unwrapped to the target. *)
Theorem unwrap_inverts_wrapping target tail :
  target ≠ EmptyString →
  allChars isAscii target = true →
  tail = EmptyString ∨ (∃ t, tail = String "&" t) →
  unwrapRedirect ("/url?q=" +:+ Js.encodeURIComponent target +:+ tail) = target.
Proof.
  intros Hne Hascii Htail. unfold unwrapRedirect.
  rewrite startsWith_app_l.
  change (Js.truthy ("/url?q=" +:+ Js.encodeURIComponent target +:+ tail)) with true.
  cbn [andb]. rewrite wrapper_query.
  unfold Js.URLSearchParams.
  change ("?q=" +:+ Js.encodeURIComponent target +:+ tail)
    with (String "?" ("q=" +:+ (Js.encodeURIComponent target +:+ tail))).
  cbv iota beta.
  assert (Hsplit : ∃ ws, Js.splitOn "&" ("q=" +:+ (Js.encodeURIComponent target +:+ tail))
                         = ("q=" +:+ Js.encodeURIComponent target) :: ws).
  { rewrite <- append_assoc.
    assert (∃ ws, Js.splitOn "&" tail = EmptyString :: ws) as [ws Hws].
    { destruct Htail as [-> | [t ->]]; by eexists. }
    exists ws.
    rewrite (splitOn_app "&" _ tail EmptyString ws); [by rewrite append_nil_r| |done].
    rewrite allChars_app. apply andb_true_iff. split; [reflexivity|].
    eapply allChars_impl; [|apply encodeURIComponent_alphabet].
    intros c Hc. apply isEncoded_no_delimiter in Hc.
    apply negb_true_iff in Hc. cbn [existsb] in Hc.
    apply orb_false_iff in Hc as [Hc _]. by rewrite Hc. }
  destruct Hsplit as [ws ->].
  change ("q=" +:+ Js.encodeURIComponent target)
    with (String "q" (String "=" (Js.encodeURIComponent target))).
  cbn [omap list_omap Js.cutAt Ascii.eqb Bool.eqb default from_option Js.get id].
  change (Js.formDecode "q") with "q". cbn [String.eqb Ascii.eqb Bool.eqb].
  rewrite formDecode_encodeURIComponent by done.
  by destruct target.
Qed.

Lemma unwrap_inverts_wrapping_witness :
  "https://example.com/a b?x=1&y=2" ≠ EmptyString ∧
  allChars isAscii "https://example.com/a b?x=1&y=2" = true ∧
  unwrapRedirect
    ("/url?q=" +:+ Js.encodeURIComponent "https://example.com/a b?x=1&y=2"
     +:+ "&sa=U&ved=2ahUKE")
  = "https://example.com/a b?x=1&y=2".
Proof.
  split; [discriminate|]. split; [reflexivity|].
  apply (unwrap_inverts_wrapping "https://example.com/a b?x=1&y=2" "&sa=U&ved=2ahUKE").
  - discriminate.
  - reflexivity.
  - right. by eexists.
Defined.

(** ** Trimmed titles *)

Lemma trimEnd_idempotent s : Js.trimEnd (Js.trimEnd s) = Js.trimEnd s.
Proof.
  induction s as [|c s IH]; [done|]. simpl.
  destruct (Js.trimEnd s) as [|d t] eqn:Hs.
  - destruct (Js.isWhiteSpace c) eqn:Hc; [done|]. simpl. by rewrite Hc.
  - cbn [Js.trimEnd]. cbn [Js.trimEnd] in IH. by rewrite IH.
Qed.

Lemma trimStart_head s :
  match Js.trimStart s with
  | String c _ => Js.isWhiteSpace c = false
  | EmptyString => True
  end.
Proof.
  induction s as [|c s IH]; [done|]. simpl.
  destruct (Js.isWhiteSpace c) eqn:Hc; [done|]. done.
Qed.

Lemma trimEnd_head c s :
  Js.isWhiteSpace c = false → ∃ t, Js.trimEnd (String c s) = String c t.
Proof.
  intros Hc. simpl. destruct (Js.trimEnd s); [|by eexists].
  rewrite Hc. by eexists.
Qed.

Lemma trim_idempotent s : Js.trim (Js.trim s) = Js.trim s.
Proof.
  unfold Js.trim. pose proof (trimStart_head s) as Hhead.
  destruct (Js.trimStart s) as [|c t]; [done|].
  destruct (trimEnd_head c t Hhead) as [t' Ht']. rewrite Ht'.
  cbn [Js.trimStart]. rewrite Hhead, <- Ht'. apply trimEnd_idempotent.
Qed.

Lemma linkAndTitle_trimmed `{Cheerio} el href t :
  linkAndTitle el = Some (href, t) → Js.trim t = t.
Proof.
  unfold linkAndTitle.
  destruct (nonEmpty (first (find el _))); [intros [= _ <-]; apply trim_idempotent|].
  destruct (nonEmpty (first (find el _))); [|done].
  intros [= _ <-].
  destruct (Js.truthy _); apply trim_idempotent.
Qed.

(** X6: every entry of the outcome of the loop has a title without white
    space at its start or at its end (trimming it again changes nothing),
    and a snippet that is trimmed in the same way or, when it was put
    together from the spans of the block, has at most 350 code units. *)
Theorem extracted_titles_are_trimmed `{Cheerio} doc :
  Forall (fun r => Js.trim (title r) = title r ∧
                   (Js.trim (snippet r) = snippet r ∨
                    (String.length (snippet r) <= 350)%nat))
         (extractResults doc).
Proof.
  unfold extractResults.
  apply (each_invariant
           (fun st => Forall (fun r => Js.trim (title r) = title r ∧
                                (Js.trim (snippet r) = snippet r ∨
                                 (String.length (snippet r) <= 350)%nat))
                             (results st)));
    [|constructor].
  intros st el Hst.
  destruct (blockCallback_cases st el)
    as [->|(href & t & _ & _ & _ & Hlink & _ & _ & ->)]; [done|].
  simpl. apply Forall_app. split; [done|]. apply Forall_singleton. simpl.
  split; [by eapply linkAndTitle_trimmed|].
  unfold extractSnippet. destruct (Js.truthy _).
  - left. apply trim_idempotent.
  - right. apply (substring_length_le _ 350).
Qed.

(** ** The regular-expression revision *)

Lemma matchUp_entries (P : result → Prop) steps i titles links snippets query rs :
  Forall P rs →
  (∀ t l sn, Js.truthy t = true → l ∈ links → Js.truthy sn = true →
             P (Result t l sn "Bright Data SERP")) →
  Forall P (Regex.matchUp steps i titles links snippets query rs).
Proof.
  intros Hrs Hnew. revert i rs Hrs.
  induction steps as [|steps IH]; intros i rs Hrs; simpl; [done|].
  apply IH.
  destruct (titles !! i) as [t|] eqn:Ht; [|done].
  destruct (links !! i) as [l|] eqn:Hl; [|done].
  destruct (Js.truthy t) eqn:Htruthy; [|done].
  destruct (Js.truthy l); [|done]. simpl.
  apply Forall_app. split; [done|]. apply Forall_singleton.
  apply Hnew; [done | by eapply list_elem_of_lookup_2 |].
  destruct (snippets !! i) as [sn|]; [|done].
  by destruct (Js.truthy sn) eqn:Hsn.
Qed.

(** X7: the regular-expression parser returns the empty list for the empty
    markup only.  For every other markup the list is not empty, every entry
    has a non-empty title, a non-empty snippet and a link that begins with
    http, and either the list is the one placeholder entry for the query or
    every link passed the filter of external links. *)
Theorem regex_parser_entries html query :
  Regex.parseGoogleHTML EmptyString query = [] ∧
  (html ≠ EmptyString → Regex.parseGoogleHTML html query ≠ []) ∧
  Forall regexEntry (Regex.parseGoogleHTML html query) ∧
  (Regex.parseGoogleHTML html query = [Regex.fallbackResult query] ∨
   Forall (fun r => Regex.isExternalLink (url r) = true)
          (Regex.parseGoogleHTML html query)).
Proof.
  split; [done|].
  unfold Regex.parseGoogleHTML.
  destruct html as [|c html]; [by split_and!; [|constructor|right; constructor]|].
  cbn [Js.truthy negb].
  match goal with
  | |- context [Regex.matchUp ?n 0 ?t ?l ?s query []] =>
      pose proof (matchUp_entries
                    (fun r => regexEntry r ∧ Regex.isExternalLink (url r) = true)
                    n 0 t l s query []) as Hentries;
      generalize dependent (Regex.matchUp n 0 t l s query [])
  end.
  intros rs Hentries.
  assert (Hrs : Forall (fun r => regexEntry r ∧ Regex.isExternalLink (url r) = true) rs).
  { apply Hentries; [constructor|].
    intros t l sn Ht Hl Hsn.
    apply list_elem_of_filter in Hl as [Hext _].
    split; [|done]. split_and!; [done|done|]. simpl.
    unfold Regex.isExternalLink in Hext.
    by repeat (apply andb_true_iff in Hext as [Hext _]). }
  clear Hentries.
  destruct (length rs =? 0)%nat eqn:Hzero.
  - apply Nat.eqb_eq, nil_length_inv in Hzero as ->. simpl.
    split_and!; [done| |by left].
    apply Forall_singleton. split_and!; [done|done|apply searchUrl_http].
  - split_and!.
    + intros _ ->. done.
    + eapply Forall_impl; [exact Hrs|]. by intros r [? _].
    + right. eapply Forall_impl; [exact Hrs|]. by intros r [_ ?].
Qed.

Lemma regex_parser_entries_witness :
  "<p>nothing here</p>" ≠ EmptyString ∧
  Regex.parseGoogleHTML "<p>nothing here</p>" "rust" ≠ [].
Proof.
  split; [discriminate|].
  apply (proj1 (proj2 (regex_parser_entries "<p>nothing here</p>" "rust"))).
  discriminate.
Defined.

(** ** The earlier tree-based revision *)

Section LegacyFacts.
Context `{Cheerio}.

Lemma legacy_containerCallback_invariant st el :
  (length (results st) <= 10)%nat ∧
  NoDup (url <$> results st) ∧
  (∀ u, u ∈ seenUrls st ↔ u ∈ url <$> results st) ∧
  Forall (fun r => Js.startsWith (url r) "http" = true ∧
                   (5 < String.length (title r))%nat) (results st) →
  let st' := (Legacy.containerCallback st el).2 in
  (length (results st') <= 10)%nat ∧
  NoDup (url <$> results st') ∧
  (∀ u, u ∈ seenUrls st' ↔ u ∈ url <$> results st') ∧
  Forall (fun r => Js.startsWith (url r) "http" = true ∧
                   (5 < String.length (title r))%nat) (results st').
Proof.
  intros (Hlen & Hnodup & Hseen & Hhttp). simpl.
  unfold Legacy.containerCallback.
  destruct (10 <=? length (results st))%nat eqn:Hfull; [done|].
  apply Nat.leb_gt in Hfull.
  destruct (Legacy.isAdOrIrrelevant [el]); [done|].
  destruct (Legacy.isSpecialBlock [el]); [done|].
  destruct (isTooShort [el]); [done|].
  destruct (attr _ "href") as [href|]; [|done].
  cbn [fmap option_fmap option_map default from_option].
  destruct (Legacy.urlRejected (Some (unwrapRedirect href)) (seenUrls st))
    eqn:Hrej; [done|].
  destruct (Legacy.accepted _ _ _) eqn:Hacc; [|done].
  unfold Legacy.urlRejected in Hrej.
  rewrite !orb_false_iff, !negb_false_iff in Hrej.
  destruct Hrej as [[[_ Hstart] _] Hfresh].
  apply bool_decide_eq_false in Hfresh.
  unfold Legacy.accepted in Hacc.
  rewrite !andb_true_iff, !Nat.ltb_lt in Hacc.
  destruct Hacc as [[[_ _] Ht] _].
  cbn [results seenUrls snd]. rewrite fmap_app, length_app. simpl.
  split; [lia|]. split; [|split].
  - apply NoDup_app. split; [done|]. split; [|apply NoDup_singleton].
    intros u Hu Hin. apply list_elem_of_singleton in Hin as ->.
    by apply Hfresh, Hseen.
  - intros u. rewrite elem_of_union, elem_of_singleton, elem_of_app,
      list_elem_of_singleton, Hseen. tauto.
  - apply Forall_app. split; [done|]. by apply Forall_singleton.
Qed.

Lemma legacy_extractResults_invariant doc :
  (length (Legacy.extractResults doc) <= 10)%nat ∧
  NoDup (url <$> Legacy.extractResults doc) ∧
  Forall (fun r => Js.startsWith (url r) "http" = true ∧
                   (5 < String.length (title r))%nat) (Legacy.extractResults doc).
Proof.
  unfold Legacy.extractResults.
  destruct (each_invariant _ Legacy.containerCallback
              legacy_containerCallback_invariant
              (select doc Legacy.resultContainersSelector) (Acc [] ∅))
    as (? & ? & _ & ?); [|done].
  repeat split; simpl; try lia; try constructor; set_solver.
Qed.

End LegacyFacts.

(** X8: the parser of the earlier tree-based revision.  It returns the
    empty list for the empty markup; when the library fails to load a
    non-empty markup it throws the error of the library, where the current
    revision returns its load-error entry; otherwise it returns a non-empty
    list of at most ten entries with pairwise distinct links that begin
    with http, and leaves the world as it was. *)
Theorem legacy_parser_outcome `{Cheerio} html query w :
  Legacy.parseGoogleHTMLWithCheerio EmptyString query w
  = (inr [], World (console w ++
                      [Line Warn [Str "PROXY_PARSE_WARN: HTML content is missing or not a string."]])
                   (network w) (clock w)) ∧
  (html ≠ EmptyString →
   match load html with
   | inl e =>
       Legacy.parseGoogleHTMLWithCheerio html query w = (inl e, w) ∧
       (parseGoogleHTMLWithCheerio html query w).1 = [loadErrorResult query]
   | inr doc =>
       ∃ rs, Legacy.parseGoogleHTMLWithCheerio html query w = (inr rs, w) ∧
             (1 <= length rs <= 10)%nat ∧
             NoDup (url <$> rs) ∧
             Forall (fun r => Js.startsWith (url r) "http" = true) rs
   end).
Proof.
  split; [reflexivity|].
  intros Hhtml. unfold Legacy.parseGoogleHTMLWithCheerio.
  destruct html as [|c html]; [done|]. cbn [Js.truthy negb].
  rewrite parseGoogleHTMLWithCheerio_returns. cbn [Js.truthy negb].
  unfold mbind, M_bind, m_bind, liftE.
  destruct (load (String c html)) as [e|doc]; [done|].
  destruct (legacy_extractResults_invariant doc) as (Hlen & Hnodup & Hhttp).
  destruct (length (Legacy.extractResults doc) =? 0)%nat eqn:Hzero.
  - eexists. split; [reflexivity|]. simpl.
    split; [lia|]. split; [apply NoDup_singleton|].
    apply Forall_singleton, searchUrl_http.
  - eexists. split; [reflexivity|]. apply Nat.eqb_neq in Hzero.
    split; [lia|]. split; [done|].
    eapply Forall_impl; [exact Hhttp|]. by intros r [? _].
Qed.

Lemma legacy_parser_outcome_witness :
  "<garbled>" ≠ EmptyString ∧
  Legacy.parseGoogleHTMLWithCheerio (H:=Sample.sampleCheerio) "<garbled>" "rust"
    Sample.startWorld
  = (inl (Error "no such sample" None), Sample.startWorld) ∧
  (parseGoogleHTMLWithCheerio (H:=Sample.sampleCheerio) "<garbled>" "rust"
     Sample.startWorld).1 = [loadErrorResult "rust"].
Proof.
  split; [discriminate|].
  apply (proj2 (legacy_parser_outcome (H:=Sample.sampleCheerio) "<garbled>" "rust"
                  Sample.startWorld)).
  discriminate.
Defined.

(** ** The endpoints on every request *)

Lemma messageOf_nonempty e : messageOf e ≠ EmptyString.
Proof. unfold messageOf. by destruct (message e). Qed.

Lemma not_ok_status resp :
  ok resp = false → (status resp < 200)%nat ∨ (299 < status resp)%nat.
Proof.
  unfold ok. intros [Hlow|Hhigh]%andb_false_iff.
  - left. by apply Nat.leb_gt.
  - right. by apply Nat.leb_gt.
Qed.

Lemma valid_query_is_string query :
  isInvalidQuery query = false → query = Some (JStr (queryText query)).
Proof.
  unfold isInvalidQuery.
  destruct query as [[| | | | |]|]; simpl; rewrite ?orb_true_r; try discriminate; done.
Qed.

Section EndpointFacts.
Context `{Cheerio}.
Variable cfg : config.
Variable fetch : upstream_request -> error + upstream_response.

(** The parser writes to the console and touches nothing else. *)
Lemma parseGoogleHTMLWithCheerio_world html query w :
  ∃ lines,
    (parseGoogleHTMLWithCheerio html query w).2
    = World (console w ++ lines) (network w) (clock w).
Proof.
  unfold parseGoogleHTMLWithCheerio. run_handler.
  destruct (Js.truthy html); run_handler.
  - destruct (load html) as [e|doc]; run_handler.
    + eexists. by rewrite <- app_assoc.
    + destruct (length (extractResults doc) =? 0)%nat; run_handler;
        eexists; by rewrite <- ?app_assoc.
  - eexists. by rewrite <- app_assoc.
Qed.

Lemma parser_list_facts html query w :
  (length (parseGoogleHTMLWithCheerio html query w).1 <= 10)%nat ∧
  NoDup (url <$> (parseGoogleHTMLWithCheerio html query w).1) ∧
  Forall (fun r => Js.startsWith (url r) "http" = true)
         (parseGoogleHTMLWithCheerio html query w).1.
Proof.
  rewrite parseGoogleHTMLWithCheerio_returns.
  destruct (negb (Js.truthy html)); [by repeat constructor|].
  destruct (load html) as [e|doc].
  { split; [simpl; lia|]. split; [apply NoDup_singleton|].
    apply Forall_singleton, searchUrl_http. }
  destruct (extractResults_invariant doc) as (Hlen & Hnodup & Hgate).
  destruct (length (extractResults doc) =? 0)%nat.
  { split; [simpl; lia|]. split; [apply NoDup_singleton|].
    apply Forall_singleton, searchUrl_http. }
  split; [done|]. split; [done|].
  eapply Forall_impl; [exact Hgate|]. by intros r (_ & _ & ? & _).
Qed.

(** The list that an endpoint sends: the one of the parser, or its own
    placeholder entry in the place of an empty one. *)
Lemma sent_list_facts (placeholder : result) rs :
  Js.startsWith (url placeholder) "http" = true →
  (length rs <= 10)%nat → NoDup (url <$> rs) →
  Forall (fun r => Js.startsWith (url r) "http" = true) rs →
  let sent_rs := if (length rs =? 0)%nat then [placeholder] else rs in
  let total := if (length rs =? 0)%nat then 1%nat else length rs in
  total = length sent_rs ∧ (1 <= length sent_rs <= 10)%nat ∧
  NoDup (url <$> sent_rs) ∧
  Forall (fun r => Js.startsWith (url r) "http" = true) sent_rs.
Proof.
  intros Hp Hlen Hnodup Hhttp. simpl.
  destruct (length rs =? 0)%nat eqn:Hzero.
  - split; [done|]. split; [simpl; lia|]. split; [apply NoDup_singleton|].
    by apply Forall_singleton.
  - apply Nat.eqb_neq in Hzero. split; [done|]. split; [lia|]. done.
Qed.

(** The run of the structured-body endpoint, on every request: its answer
    is well formed, the clock is not touched, the console grows, and the
    upstream is either not called, or called once by a request that passed
    the validation and the configuration check. *)
Lemma post_run_facts req w :
  wellFormedAnswer (postBrightdata cfg fetch req w).1 ∧
  clock (postBrightdata cfg fetch req w).2 = clock w ∧
  console w `prefix_of` console (postBrightdata cfg fetch req w).2 ∧
  (network (postBrightdata cfg fetch req w).2 = network w ∨
   ∃ q ureq, postReachesUpstream cfg req q ureq ∧
             network (postBrightdata cfg fetch req w).2 = network w ++ [ureq]).
Proof.
  unfold postBrightdata, postBrightdataWith, wellFormedAnswer. run_handler.
  destruct (toStringJs (getProp (bodyOrEmpty req) "query")) as [e|shown] eqn:Hshown;
    run_handler.
  { split_and!; [split; [done|apply messageOf_nonempty] | done | | by left].
    rewrite <- app_assoc. by apply prefix_app_r. }
  destruct (isInvalidQuery (getProp (bodyOrEmpty req) "query")) eqn:Hvalid;
    run_handler.
  { split_and!; [by left | done | | by left].
    rewrite <- app_assoc. by apply prefix_app_r. }
  destruct (Js.truthy (apiToken cfg)) eqn:Htoken; run_handler; cycle 1.
  { split_and!; [by right | done | | by left].
    rewrite <- app_assoc. by apply prefix_app_r. }
  pose proof (valid_query_is_string _ Hvalid) as Hq.
  set (q := queryText (getProp (bodyOrEmpty req) "query")) in *.
  destruct (toStringValue (default (JNum 10) (getProp (bodyOrEmpty req) "num")))
    as [e|num] eqn:Hnum; run_handler.
  { split_and!; [split; [done|apply messageOf_nonempty] | done | | by left].
    rewrite <- app_assoc. by apply prefix_app_r. }
  destruct (toStringValue (default (JStr "en") (getProp (bodyOrEmpty req) "hl")))
    as [e|hl] eqn:Hhl; run_handler.
  { split_and!; [split; [done|apply messageOf_nonempty] | done | | by left].
    rewrite <- app_assoc. by apply prefix_app_r. }
  destruct (toStringValue (default (JStr "us") (getProp (bodyOrEmpty req) "gl")))
    as [e|gl] eqn:Hgl; run_handler.
  { split_and!; [split; [done|apply messageOf_nonempty] | done | | by left].
    rewrite <- app_assoc. by apply prefix_app_r. }
  assert (Hreach : postReachesUpstream cfg req q
            (upstreamRequestFor cfg "Mirror Search Proxy v1.0" (postTarget q num hl gl))).
  { split; [done|]. split; [by rewrite <- Hq|]. split; [done|]. by exists num, hl, gl. }
  destruct (fetch _) as [e|resp] eqn:Hfetch; run_handler.
  { split_and!; [split; [done|apply messageOf_nonempty] | done | | right; eauto].
    rewrite <- app_assoc. by apply prefix_app_r. }
  destruct (ok resp) eqn:Hok; run_handler; cycle 1.
  { destruct (text resp) as [e|errorText]; run_handler.
    - split_and!; [split; [done|apply messageOf_nonempty] | done | | right; eauto].
      rewrite <- app_assoc. by apply prefix_app_r.
    - split_and!; [|done| |right; eauto].
      + split; [done|]. split; [apply (substring_length_le _ 200)|].
        by apply not_ok_status.
      + rewrite <- app_assoc. by apply prefix_app_r. }
  destruct (text resp) as [e|html]; run_handler.
  { split_and!; [split; [done|apply messageOf_nonempty] | done | | right; eauto].
    rewrite <- app_assoc. by apply prefix_app_r. }
  match goal with
  | |- context [parseGoogleHTMLWithCheerio html q ?w1] =>
      destruct (parseGoogleHTMLWithCheerio_world html q w1) as [lines Hworld];
      pose proof (parser_list_facts html q w1) as (Hlen & Hnodup & Hhttp);
      destruct (parseGoogleHTMLWithCheerio html q w1) as [rs w2]
  end.
  cbn [fst snd] in *. subst w2. run_handler.
  pose proof (sent_list_facts (postPlaceholder q) rs (searchUrl_http q)
                Hlen Hnodup Hhttp) as Hsent. simpl in Hsent.
  destruct (length rs =? 0)%nat; run_handler.
  - split_and!; [by split | done | | right; eauto].
    rewrite <- app_assoc. by apply prefix_app_r.
  - split_and!; [by split | done | | right; eauto].
    rewrite <- app_assoc. by apply prefix_app_r.
Qed.

(** The run of the query-string endpoint, on every request: it rejects only
    when writing the query out throws, and otherwise as above. *)
Lemma get_run_facts req w :
  match (getBrightdataget cfg fetch req w).1 with
  | inr answer => wellFormedAnswer answer
  | inl e => toStringJs (getProp (query_params req) "query") = inl e
  end ∧
  clock (getBrightdataget cfg fetch req w).2 = clock w ∧
  console w `prefix_of` console (getBrightdataget cfg fetch req w).2 ∧
  (network (getBrightdataget cfg fetch req w).2 = network w ∨
   ∃ q ureq, getReachesUpstream cfg req q ureq ∧
             network (getBrightdataget cfg fetch req w).2 = network w ++ [ureq]).
Proof.
  unfold getBrightdataget, getBrightdatagetWith, wellFormedAnswer. run_handler.
  destruct (toStringJs (getProp (query_params req) "query")) as [e|shown] eqn:Hshown;
    run_handler.
  { split_and!; [done | done | by apply prefix_app_r | by left]. }
  destruct (isInvalidQuery (getProp (query_params req) "query")) eqn:Hvalid;
    run_handler.
  { split_and!; [by left | done | | by left].
    rewrite <- !app_assoc. by apply prefix_app_r. }
  destruct (Js.truthy (apiToken cfg)) eqn:Htoken; run_handler; cycle 1.
  { split_and!; [by right | done | | by left].
    rewrite <- !app_assoc. by apply prefix_app_r. }
  pose proof (valid_query_is_string _ Hvalid) as Hq.
  set (q := queryText (getProp (query_params req) "query")) in *.
  destruct (toStringValue (default (JStr "10") (getProp (query_params req) "num")))
    as [e|num] eqn:Hnum; run_handler.
  { split_and!; [split; [done|apply messageOf_nonempty] | done | | by left].
    rewrite <- !app_assoc. by apply prefix_app_r. }
  destruct (toStringValue (default (JStr "en") (getProp (query_params req) "hl")))
    as [e|hl] eqn:Hhl; run_handler.
  { split_and!; [split; [done|apply messageOf_nonempty] | done | | by left].
    rewrite <- !app_assoc. by apply prefix_app_r. }
  destruct (toStringValue (default (JStr "us") (getProp (query_params req) "gl")))
    as [e|gl] eqn:Hgl; run_handler.
  { split_and!; [split; [done|apply messageOf_nonempty] | done | | by left].
    rewrite <- !app_assoc. by apply prefix_app_r. }
  assert (Hreach : getReachesUpstream cfg req q
            (upstreamRequestFor cfg "Mirror Search Proxy v1.0 (via GET->POST)"
               (getTarget q num hl gl))).
  { split; [done|]. split; [by rewrite <- Hq|]. split; [done|]. by exists num, hl, gl. }
  destruct (fetch _) as [e|resp] eqn:Hfetch; run_handler.
  { split_and!; [split; [done|apply messageOf_nonempty] | done | | right; eauto].
    rewrite <- !app_assoc. by apply prefix_app_r. }
  destruct (ok resp) eqn:Hok; run_handler; cycle 1.
  { destruct (text resp) as [e|errorText]; run_handler.
    - split_and!; [split; [done|apply messageOf_nonempty] | done | | right; eauto].
      rewrite <- !app_assoc. by apply prefix_app_r.
    - split_and!; [|done| |right; eauto].
      + split; [done|]. split; [apply (substring_length_le _ 200)|].
        by apply not_ok_status.
      + rewrite <- !app_assoc. by apply prefix_app_r. }
  destruct (text resp) as [e|html]; run_handler.
  { split_and!; [split; [done|apply messageOf_nonempty] | done | | right; eauto].
    rewrite <- !app_assoc. by apply prefix_app_r. }
  match goal with
  | |- context [parseGoogleHTMLWithCheerio html q ?w1] =>
      destruct (parseGoogleHTMLWithCheerio_world html q w1) as [lines Hworld];
      pose proof (parser_list_facts html q w1) as (Hlen & Hnodup & Hhttp);
      destruct (parseGoogleHTMLWithCheerio html q w1) as [rs w2]
  end.
  cbn [fst snd] in *. subst w2. run_handler.
  pose proof (sent_list_facts (getPlaceholder q) rs (searchUrl_http q)
                Hlen Hnodup Hhttp) as Hsent. simpl in Hsent.
  destruct (length rs =? 0)%nat; run_handler.
  - split_and!; [by split | done | | right; eauto].
    rewrite <- !app_assoc. by apply prefix_app_r.
  - split_and!; [by split | done | | right; eauto].
    rewrite <- !app_assoc. by apply prefix_app_r.
Qed.

(** The structured-body endpoint once the upstream has answered with markup:
    the answer is decided by the parser of the revision. *)
Lemma post_answered_by_parser parser req w q ureq resp html :
  postReachesUpstream cfg req q ureq →
  fetch ureq = inr resp → ok resp = true → text resp = inr html →
  ∃ line,
    postBrightdataWith cfg fetch parser req w =
      match parser html q
              (World (console w ++ [line]) (network w ++ [ureq]) (clock w)) with
      | (inr rs, w2) =>
          (Response 200
             (Found q (if (length rs =? 0)%nat then [postPlaceholder q] else rs)
                (if (length rs =? 0)%nat then 1%nat else length rs)
                "Bright Data SERP" (clock w2)), w2)
      | (inl e, w2) =>
          (Response 500 (Failed "Proxy server error" (messageOf e) (clock w2)),
           World (console w2 ++
                    [Line Err [Str "PROXY_ERROR: Unhandled error in /api/brightdata:";
                               Str (message e)]])
                 (network w2) (clock w2))
      end.
Proof.
  intros (Hq & Hvalid & Htoken & num & hl & gl & Hnum & Hhl & Hgl & ->)
    Hfetch Hok Htext.
  exists (Line Log
            [Str "PROXY_DEBUG: Path /api/brightdata. Content-Type:";
             from_option Str Undefined (Js.get (headers req) "content-type");
             Str "Body from express.json():"; Json (body req)]).
  unfold postBrightdataWith. run_handler.
  rewrite Hq. cbn [toStringJs toStringValue]. rewrite Hvalid, Htoken.
  run_handler. rewrite Hnum, Hhl, Hgl, Hfetch, Hok. run_handler.
  rewrite Htext. run_handler.
  destruct (parser html q _) as [[e|rs] w2]; run_handler; [reflexivity|].
  unfold postPlaceholder. by destruct (length rs =? 0)%nat.
Qed.

Lemma get_answered_by_parser parser req w q ureq resp html :
  getReachesUpstream cfg req q ureq →
  fetch ureq = inr resp → ok resp = true → text resp = inr html →
  ∃ line1 line2 line3,
    getBrightdatagetWith cfg fetch parser req w =
      match parser html q
              (World (console w ++ [line1; line2; line3]) (network w ++ [ureq])
                     (clock w)) with
      | (inr rs, w2) =>
          (inr (Response 200
                  (Found q (if (length rs =? 0)%nat then [getPlaceholder q] else rs)
                     (if (length rs =? 0)%nat then 1%nat else length rs)
                     "Bright Data SERP (via GET->POST Proxy)" (clock w2))), w2)
      | (inl e, w2) =>
          (inr (Response 500
                  (Failed "Proxy server error (via GET->POST)" (messageOf e)
                     (clock w2))),
           World (console w2 ++
                    [Line Err
                       [Str "PROXY_ERROR_GET: Unhandled error in /api/brightdataget:";
                        Str (message e); from_option Str Undefined (stack e)]])
                 (network w2) (clock w2))
      end.
Proof.
  intros (Hq & Hvalid & Htoken & num & hl & gl & Hnum & Hhl & Hgl & ->)
    Hfetch Hok Htext.
  exists (Line Log [Str "GET_ROUTE_ENTRY: Path /api/brightdataget. Headers:";
                    Json (Some (JObj (prod_map id JStr <$> headers req)))]),
         (Line Log
            [Str "PROXY_DEBUG_GET: Path /api/brightdataget. Extracted Query from URL:";
             Str q; Json (Some (query_params req))]),
         (Line Log
            [Str "PROXY_INTERNAL_POST_TO_BRIGHTDATA_GET_ROUTE: Request to BrightData:";
             Str (getTarget q num hl gl)]).
  unfold getBrightdatagetWith. run_handler.
  rewrite Hq. cbn [toStringJs toStringValue]. run_handler.
  rewrite Hvalid, Htoken. run_handler.
  rewrite Hnum, Hhl, Hgl. run_handler. rewrite Hfetch, Hok. run_handler.
  rewrite Htext. run_handler. rewrite <- !app_assoc. cbn [app].
  destruct (parser html q _) as [[e|rs] w2]; run_handler; [reflexivity|].
  unfold getPlaceholder. by destruct (length rs =? 0)%nat.
Qed.

(** The current parser inside an endpoint: it answers with a list that is
    not empty when the markup is not, and leaves the clock alone. *)
Lemma lifted_parser_run html query w :
  html ≠ EmptyString →
  ∃ w2, lift (parseGoogleHTMLWithCheerio html query) w
        = (inr (parseGoogleHTMLWithCheerio html query w).1, w2) ∧
        clock w2 = clock w ∧
        (length (parseGoogleHTMLWithCheerio html query w).1 =? 0)%nat = false.
Proof.
  intros Hhtml. unfold lift.
  destruct (parseGoogleHTMLWithCheerio_world html query w) as [lines Hworld].
  pose proof (parseGoogleHTMLWithCheerio_returns html query w) as Hlist.
  destruct (parseGoogleHTMLWithCheerio html query w) as [rs w2].
  cbn [fst snd] in *. subst w2. eexists. split; [done|]. split; [done|].
  rewrite Hlist. destruct html as [|c html]; [done|]. cbn [Js.truthy negb].
  destruct (load _) as [e|doc]; [done|].
  by destruct (length (extractResults doc) =? 0)%nat eqn:Hzero.
Qed.

End EndpointFacts.

(** X9: every answer of the two endpoints of the current revision is well
    formed.  A 200 answer carries a list of one to ten entries with pairwise
    distinct links that begin with http, and [totalResults] is its length; a
    502 answer carries at most 200 code units of upstream text and an
    upstream status outside of 200-299; the other answers are 400 or 500,
    and the message of a caught failure is never empty.  The structured-body
    endpoint always answers; the query-string endpoint fails to answer only
    when writing the query out throws. *)
Theorem endpoint_answers_are_well_formed `{Cheerio} cfg fetch req w :
  wellFormedAnswer (postBrightdata cfg fetch req w).1 ∧
  match (getBrightdataget cfg fetch req w).1 with
  | inr answer => wellFormedAnswer answer
  | inl e => toStringJs (getProp (query_params req) "query") = inl e
  end.
Proof.
  split; [apply post_run_facts | apply get_run_facts].
Qed.

(** X10: a request makes at most one upstream call, and none unless its
    query passed the validation and the token is configured: after a run the
    list of upstream calls is the one before, or the one before followed by
    the single call of the request.  Nothing is retried.  The console only
    grows and the clock is not touched. *)
Theorem at_most_one_upstream_call `{Cheerio} cfg fetch req w :
  (clock (postBrightdata cfg fetch req w).2 = clock w ∧
   console w `prefix_of` console (postBrightdata cfg fetch req w).2 ∧
   (network (postBrightdata cfg fetch req w).2 = network w ∨
    ∃ q ureq, postReachesUpstream cfg req q ureq ∧
              network (postBrightdata cfg fetch req w).2 = network w ++ [ureq])) ∧
  (clock (getBrightdataget cfg fetch req w).2 = clock w ∧
   console w `prefix_of` console (getBrightdataget cfg fetch req w).2 ∧
   (network (getBrightdataget cfg fetch req w).2 = network w ∨
    ∃ q ureq, getReachesUpstream cfg req q ureq ∧
              network (getBrightdataget cfg fetch req w).2 = network w ++ [ureq])).
Proof.
  split; [apply post_run_facts | apply get_run_facts].
Qed.

(** X11: a request with a valid query is answered 500 with the
    configuration error when no token is configured, by both endpoints and
    whatever the upstream and the parser would do; no upstream call is
    made. *)
Theorem missing_token_answers_500 cfg fetch parser :
  Js.truthy (apiToken cfg) = false →
  (∀ req w q,
     getProp (bodyOrEmpty req) "query" = Some (JStr q) →
     isInvalidQuery (Some (JStr q)) = false →
     (postBrightdataWith cfg fetch parser req w).1
     = Response 500
         (Rejected "Configuration error" "Bright Data API token not configured" []) ∧
     network (postBrightdataWith cfg fetch parser req w).2 = network w) ∧
  (∀ req w q,
     getProp (query_params req) "query" = Some (JStr q) →
     isInvalidQuery (Some (JStr q)) = false →
     (getBrightdatagetWith cfg fetch parser req w).1
     = inr (Response 500
              (Rejected "Configuration error" "Bright Data API token not configured" [])) ∧
     network (getBrightdatagetWith cfg fetch parser req w).2 = network w).
Proof.
  intros Htoken. split; intros req w q Hq Hvalid.
  - unfold postBrightdataWith. run_handler.
    rewrite Hq. cbn [toStringJs toStringValue]. rewrite Hvalid, Htoken.
    run_handler. done.
  - unfold getBrightdatagetWith. run_handler.
    rewrite Hq. cbn [toStringJs toStringValue]. run_handler.
    rewrite Hvalid, Htoken. run_handler. done.
Qed.

Lemma missing_token_answers_500_witness :
  Js.truthy (apiToken MoreSamples.noTokenConfig) = false ∧
  (postBrightdataWith MoreSamples.noTokenConfig MoreSamples.rustAnswer
     (fun _ _ => mret []) Sample.rustBody Sample.startWorld).1
  = Response 500
      (Rejected "Configuration error" "Bright Data API token not configured" []) ∧
  network (postBrightdataWith MoreSamples.noTokenConfig MoreSamples.rustAnswer
             (fun _ _ => mret []) Sample.rustBody Sample.startWorld).2
  = network Sample.startWorld.
Proof.
  split; [reflexivity|].
  apply (proj1 (missing_token_answers_500 MoreSamples.noTokenConfig
                  MoreSamples.rustAnswer (fun _ _ => mret []) eq_refl)
           Sample.rustBody Sample.startWorld "rust programming");
    reflexivity.
Defined.

(** X12: a query that is missing, not a string, empty or made of white space
    only, and that can be written out as a string, is answered 400 by both
    endpoints, whatever the configuration, the upstream and the parser; no
    upstream call is made. *)
Theorem printable_invalid_query_answers_400 cfg fetch parser :
  (∀ req w shown,
     isInvalidQuery (getProp (bodyOrEmpty req) "query") = true →
     toStringJs (getProp (bodyOrEmpty req) "query") = inr shown →
     code (postBrightdataWith cfg fetch parser req w).1 = 400%nat ∧
     network (postBrightdataWith cfg fetch parser req w).2 = network w) ∧
  (∀ req w shown,
     isInvalidQuery (getProp (query_params req) "query") = true →
     toStringJs (getProp (query_params req) "query") = inr shown →
     (∃ answer, (getBrightdatagetWith cfg fetch parser req w).1 = inr answer ∧
                code answer = 400%nat) ∧
     network (getBrightdatagetWith cfg fetch parser req w).2 = network w).
Proof.
  split; intros req w shown Hinvalid Hshown.
  - destruct (post_invalid_query cfg fetch parser req w shown Hinvalid Hshown)
      as (debug & l1 & l2 & ->). done.
  - destruct (get_invalid_query cfg fetch parser req w shown Hinvalid Hshown)
      as (debug & l1 & l2 & l3 & ->). split; [by eexists|done].
Qed.

Lemma printable_invalid_query_answers_400_witness :
  isInvalidQuery (getProp (bodyOrEmpty
                    (Request [] (Some (JObj [("query", JArr [JStr "rust"])])) (JObj [])))
                    "query") = true ∧
  code (postBrightdataWith Sample.sampleConfig Sample.outOfService
          (fun _ _ => mret [])
          (Request [] (Some (JObj [("query", JArr [JStr "rust"])])) (JObj []))
          Sample.startWorld).1 = 400%nat ∧
  network (postBrightdataWith Sample.sampleConfig Sample.outOfService
             (fun _ _ => mret [])
             (Request [] (Some (JObj [("query", JArr [JStr "rust"])])) (JObj []))
             Sample.startWorld).2 = network Sample.startWorld.
Proof.
  split; [reflexivity|].
  apply (proj1 (printable_invalid_query_answers_400 Sample.sampleConfig
                  Sample.outOfService (fun _ _ => mret []))
           (Request [] (Some (JObj [("query", JArr [JStr "rust"])])) (JObj []))
           Sample.startWorld "rust");
    reflexivity.
Defined.





(** X14: when the upstream answers a valid request with a success status and
    a non-empty markup, each endpoint of the current revision answers 200
    with exactly the list of the parser for that markup and the query of the
    request, and with its length as [totalResults]: the placeholder entry of
    the endpoint itself is used for the empty markup only. *)
Theorem markup_answer_is_parser_list `{Cheerio} cfg fetch :
  (∀ req w q ureq resp html,
     postReachesUpstream cfg req q ureq →
     fetch ureq = inr resp → ok resp = true → text resp = inr html →
     html ≠ EmptyString →
     (postBrightdata cfg fetch req w).1
     = Response 200
         (Found q (parseGoogleHTMLWithCheerio html q w).1
            (length (parseGoogleHTMLWithCheerio html q w).1)
            "Bright Data SERP" (clock w))) ∧
  (∀ req w q ureq resp html,
     getReachesUpstream cfg req q ureq →
     fetch ureq = inr resp → ok resp = true → text resp = inr html →
     html ≠ EmptyString →
     (getBrightdataget cfg fetch req w).1
     = inr (Response 200
              (Found q (parseGoogleHTMLWithCheerio html q w).1
                 (length (parseGoogleHTMLWithCheerio html q w).1)
                 "Bright Data SERP (via GET->POST Proxy)" (clock w)))).
Proof.
  split; intros req w q ureq resp html Hreach Hfetch Hok Htext Hhtml.
  - destruct (post_answered_by_parser cfg fetch
                (fun html query => lift (parseGoogleHTMLWithCheerio html query))
                req w q ureq resp html Hreach Hfetch Hok Htext) as [line Hrun].
    unfold postBrightdata. rewrite Hrun.
    destruct (lifted_parser_run html q
                (World (console w ++ [line]) (network w ++ [ureq]) (clock w)) Hhtml)
      as (w2 & -> & Hclock & ->).
    cbn [fst]. rewrite Hclock. cbn [clock].
    by rewrite !parseGoogleHTMLWithCheerio_returns.
  - destruct (get_answered_by_parser cfg fetch
                (fun html query => lift (parseGoogleHTMLWithCheerio html query))
                req w q ureq resp html Hreach Hfetch Hok Htext)
      as (l1 & l2 & l3 & Hrun).
    unfold getBrightdataget. rewrite Hrun.
    destruct (lifted_parser_run html q
                (World (console w ++ [l1; l2; l3]) (network w ++ [ureq]) (clock w))
                Hhtml)
      as (w2 & -> & Hclock & ->).
    cbn [fst]. rewrite Hclock. cbn [clock].
    by rewrite !parseGoogleHTMLWithCheerio_returns.
Qed.

Lemma markup_answer_is_parser_list_witness :
  (postBrightdata (H:=Sample.sampleCheerio) Sample.sampleConfig
     MoreSamples.rustAnswer Sample.rustBody Sample.startWorld).1
  = Response 200
      (Found "rust programming"
         (parseGoogleHTMLWithCheerio (H:=Sample.sampleCheerio)
            "<html><!-- rust programming --></html>" "rust programming"
            Sample.startWorld).1
         (length (parseGoogleHTMLWithCheerio (H:=Sample.sampleCheerio)
                    "<html><!-- rust programming --></html>" "rust programming"
                    Sample.startWorld).1)
         "Bright Data SERP" (clock Sample.startWorld)).
Proof.
  apply (proj1 (markup_answer_is_parser_list (H:=Sample.sampleCheerio)
                  Sample.sampleConfig MoreSamples.rustAnswer)
           Sample.rustBody Sample.startWorld "rust programming"
           (upstreamRequestFor Sample.sampleConfig "Mirror Search Proxy v1.0"
              (postTarget "rust programming" "5" "en" "us"))
           (UpstreamResponse 200 "OK" (inr "<html><!-- rust programming --></html>"))
           "<html><!-- rust programming --></html>").
  - split; [reflexivity|]. split; [reflexivity|]. split; [reflexivity|].
    exists "5", "en", "us". repeat split.
  - reflexivity.
  - reflexivity.
  - reflexivity.
  - discriminate.
Defined.



(** X16: the health report tells whether a token is configured and never
    which: it is the same for any two configurations with a token that agree
    on the zone and the endpoint, and it leaves the world as it was. *)
Theorem health_report_hides_token cfg w :
  (getHealth cfg w).2 = w ∧
  (hasApiToken (getHealth cfg w).1 = true ↔ apiToken cfg ≠ EmptyString) ∧
  (∀ cfg',
     config_zone cfg' = config_zone cfg → apiUrl cfg' = apiUrl cfg →
     apiToken cfg ≠ EmptyString → apiToken cfg' ≠ EmptyString →
     getHealth cfg' w = getHealth cfg w).
Proof.
  unfold getHealth. run_handler. split; [done|]. split.
  - simpl. by destruct (apiToken cfg).
  - intros cfg' -> -> Hcfg Hcfg'.
    destruct (apiToken cfg), (apiToken cfg'); done.
Qed.

Lemma health_report_hides_token_witness :
  apiToken Sample.sampleConfig ≠ EmptyString ∧
  apiToken (Config "another-token" "serp_api1" "https://api.brightdata.com/request")
  ≠ EmptyString ∧
  getHealth (Config "another-token" "serp_api1" "https://api.brightdata.com/request")
    Sample.startWorld
  = getHealth Sample.sampleConfig Sample.startWorld.
Proof.
  split; [discriminate|]. split; [discriminate|].
  apply (proj2 (proj2 (health_report_hides_token Sample.sampleConfig Sample.startWorld))
           (Config "another-token" "serp_api1" "https://api.brightdata.com/request"));
    [reflexivity | reflexivity | discriminate | discriminate].
Defined.


(** * The ad filter across nested candidates, upstream failures, and the
      empty markup *)

(** C3, as the specification states it, fails when a flagged block lies
    inside a candidate that is not flagged.  On the sample page a block of
    the organic shape stands inside a paid placement, which stands inside a
    result container.  The block is a candidate and is flagged, since the
    test for a paid placement looks at the block and its ancestors; the
    container is a candidate too and is not flagged, since no test looks for
    a paid placement among the descendants; the link, title and snippet of
    the flagged block are found from the container, and the returned list
    holds the entry made of them. *)
Lemma C3_flagged_block_emitted_through_container :
  MoreSamples.sponsoredHandle
    ∈ @select MoreSamples.nestedAdCheerio MoreSamples.nestedAdPage
        resultBlocksSelector ∧
  isAdOrSpecial (H:=MoreSamples.nestedAdCheerio) [MoreSamples.sponsoredHandle]
  = true ∧
  linkAndTitle (H:=MoreSamples.nestedAdCheerio) [MoreSamples.sponsoredHandle]
  = Some (Some "https://courses.example.com/rust-weekend",
          "Master Rust in a Weekend") ∧
  extractSnippet (H:=MoreSamples.nestedAdCheerio) [MoreSamples.sponsoredHandle]
  = "Become productive in Rust with live mentoring and graded exercises." ∧
  (parseGoogleHTMLWithCheerio (H:=MoreSamples.nestedAdCheerio)
     "<html>nested</html>" "rust course" Sample.startWorld).1
  = [ Result "Master Rust in a Weekend"
        "https://courses.example.com/rust-weekend"
        "Become productive in Rust with live mentoring and graded exercises."
        "Bright Data SERP (Cheerio)" ].
Proof.
  split.
  { apply list_elem_of_In. vm_compute. right. left. reflexivity. }
  repeat split; vm_compute; reflexivity.
Qed.

(** ** What [substring(0, n)] keeps *)



Section UnreadableAnswer.
Variable cfg : config.
Variable fetch : upstream_request -> error + upstream_response.



End UnreadableAnswer.




(** C8: when a request reaches the upstream call, the upstream answers with
    a success status and the markup is the empty string, the parser writes
    its entry line and the warning that the content is missing to the
    console and returns no entry, and each endpoint answers with status 200
    and a result list of exactly one placeholder entry: its title is "No
    results for" followed by the query between double quotes (preceded by a
    backslash each in the query-string endpoint), and its link is the search
    address followed by the percent-encoded query, from which the query is
    read back when its code units are below 128. *)
Theorem C8_empty_markup_answers_placeholder `{Cheerio} cfg fetch :
  (∀ query w,
     parseGoogleHTMLWithCheerio EmptyString query w =
       ([], World (console w ++
                     [ Line Log [Str "PROXY_PARSE_RAW_HTML_START:"; Str EmptyString];
                       Line Warn [Str "PROXY_PARSE_WARN: HTML content is missing or not a string."] ])
                  (network w) (clock w))) ∧
  (∀ req w q ureq resp,
     postReachesUpstream cfg req q ureq →
     fetch ureq = inr resp → ok resp = true → text resp = inr EmptyString →
     ∃ line,
       postBrightdata cfg fetch req w =
         (Response 200
            (Found q
               [ Result
                   ("No results for " +:+ String "034" (q +:+ String "034" EmptyString))
                   ("https://www.google.com/search?q=" +:+ Js.encodeURIComponent q)
                   "No search results were found. Try using different keywords or check your search terms."
                   "Bright Data SERP" ]
               1 "Bright Data SERP" (clock w)),
          World (console w ++
                   [ line;
                     Line Log [Str "PROXY_PARSE_RAW_HTML_START:"; Str EmptyString];
                     Line Warn [Str "PROXY_PARSE_WARN: HTML content is missing or not a string."] ])
                (network w ++ [ureq]) (clock w))) ∧
  (∀ req w q ureq resp,
     getReachesUpstream cfg req q ureq →
     fetch ureq = inr resp → ok resp = true → text resp = inr EmptyString →
     ∃ line1 line2 line3,
       getBrightdataget cfg fetch req w =
         (inr (Response 200
                 (Found q
                    [ Result
                        ("No results for " +:+
                         String "092" (String "034"
                           (q +:+ String "092" (String "034" EmptyString))))
                        ("https://www.google.com/search?q=" +:+ Js.encodeURIComponent q)
                        "No search results were found. Try using different keywords."
                        "Bright Data SERP (via GET->POST Proxy)" ]
                    1 "Bright Data SERP (via GET->POST Proxy)" (clock w))),
          World (console w ++
                   [ line1; line2; line3;
                     Line Log [Str "PROXY_PARSE_RAW_HTML_START:"; Str EmptyString];
                     Line Warn [Str "PROXY_PARSE_WARN: HTML content is missing or not a string."] ])
                (network w ++ [ureq]) (clock w))) ∧
  (∀ q, allChars isAscii q = true →
        Js.formDecode (Js.encodeURIComponent q) = q).
Proof.
  split_and!.
  - apply parseGoogleHTMLWithCheerio_empty_run.
  - intros req w q ureq resp Hreach Hfetch Hok Htext.
    destruct (post_empty_markup cfg fetch req w q ureq resp Hreach Hfetch Hok Htext)
      as [line Hrun].
    exists line. exact Hrun.
  - intros req w q ureq resp Hreach Hfetch Hok Htext.
    destruct (get_empty_markup cfg fetch req w q ureq resp Hreach Hfetch Hok Htext)
      as (l1 & l2 & l3 & Hrun).
    exists l1, l2, l3. rewrite Hrun.
    unfold getPlaceholder, quoted, backslash, searchUrl, loadFailureLines.
    rewrite (append_assoc q). reflexivity.
  - apply formDecode_encodeURIComponent.
Qed.

Lemma C8_empty_markup_answers_placeholder_witness :
  ok (UpstreamResponse 200 "OK" (inr EmptyString)) = true ∧
  (allChars isAscii "rust programming" = true ∧
   Js.formDecode "rust%20programming" = "rust programming") ∧
  (∃ line,
     postBrightdata (H:=Sample.sampleCheerio) Sample.sampleConfig
       Sample.emptyAnswer Sample.rustBody Sample.startWorld =
       (Response 200
          (Found "rust programming"
             [ Result
                 ("No results for " +:+
                  String "034" ("rust programming" +:+ String "034" EmptyString))
                 "https://www.google.com/search?q=rust%20programming"
                 "No search results were found. Try using different keywords or check your search terms."
                 "Bright Data SERP" ]
             1 "Bright Data SERP" "2025-01-01T00:00:00.000Z"),
        World ([] ++
                 [ line;
                   Line Log [Str "PROXY_PARSE_RAW_HTML_START:"; Str EmptyString];
                   Line Warn [Str "PROXY_PARSE_WARN: HTML content is missing or not a string."] ])
              ([] ++
               [ UpstreamRequest "https://api.brightdata.com/request"
                   "Bearer token-123" "Mirror Search Proxy v1.0" "serp_api1"
                   "https://www.google.com/search?q=rust%20programming&num=5&hl=en&gl=us"
                   "raw" ])
              "2025-01-01T00:00:00.000Z")) ∧
  ∃ line1 line2 line3,
    getBrightdataget (H:=Sample.sampleCheerio) Sample.sampleConfig
      Sample.emptyAnswer Sample.rustQueryString Sample.startWorld =
      (inr (Response 200
              (Found "rust programming"
                 [ Result
                     ("No results for " +:+
                      String "092" (String "034"
                        ("rust programming" +:+ String "092" (String "034" EmptyString))))
                     "https://www.google.com/search?q=rust%20programming"
                     "No search results were found. Try using different keywords."
                     "Bright Data SERP (via GET->POST Proxy)" ]
                 1 "Bright Data SERP (via GET->POST Proxy)"
                 "2025-01-01T00:00:00.000Z")),
       World ([] ++
                [ line1; line2; line3;
                  Line Log [Str "PROXY_PARSE_RAW_HTML_START:"; Str EmptyString];
                  Line Warn [Str "PROXY_PARSE_WARN: HTML content is missing or not a string."] ])
             ([] ++
              [ UpstreamRequest "https://api.brightdata.com/request"
                  "Bearer token-123" "Mirror Search Proxy v1.0 (via GET->POST)"
                  "serp_api1"
                  "https://www.google.com/search?q=rust%20programming&num=10&hl=en&gl=us"
                  "raw" ])
             "2025-01-01T00:00:00.000Z").
Proof.
  split; [reflexivity|]. split.
  { split; [reflexivity|].
    exact (proj2 (proj2 (proj2 (C8_empty_markup_answers_placeholder
                                  (H:=Sample.sampleCheerio)
                                  Sample.sampleConfig Sample.emptyAnswer)))
             "rust programming" eq_refl). }
  split.
  { apply (proj1 (proj2 (C8_empty_markup_answers_placeholder
                           (H:=Sample.sampleCheerio)
                           Sample.sampleConfig Sample.emptyAnswer))
             Sample.rustBody Sample.startWorld "rust programming"
             (upstreamRequestFor Sample.sampleConfig "Mirror Search Proxy v1.0"
                (postTarget "rust programming" "5" "en" "us"))
             (UpstreamResponse 200 "OK" (inr EmptyString))).
    - split; [reflexivity|]. split; [reflexivity|]. split; [reflexivity|].
      exists "5", "en", "us". repeat split.
    - reflexivity.
    - reflexivity.
    - reflexivity. }
  apply (proj1 (proj2 (proj2 (C8_empty_markup_answers_placeholder
                                (H:=Sample.sampleCheerio)
                                Sample.sampleConfig Sample.emptyAnswer)))
           Sample.rustQueryString Sample.startWorld "rust programming"
           (upstreamRequestFor Sample.sampleConfig
              "Mirror Search Proxy v1.0 (via GET->POST)"
              (getTarget "rust programming" "10" "en" "us"))
           (UpstreamResponse 200 "OK" (inr EmptyString))).
  - split; [reflexivity|]. split; [reflexivity|]. split; [reflexivity|].
    exists "10", "en", "us". repeat split.
  - reflexivity.
  - reflexivity.
  - reflexivity.
Defined.
